(** * explorerFontEditor: a shallow embedding of the Explorer font/colour mod

    The development follows [src/explorerFontEditor.cpp].  Win32 handles,
    colours and integers are [Z]; wide strings are lists of 16-bit code
    units; the Win32 and Windhawk entry points the mod consumes form an
    interface ([Win32]) over an abstract world, and the mod's own functions
    run in a small state-and-trace monad that records every call made into
    that interface. *)

From Stdlib Require Import String Ascii ZArith List Bool Lia.
Import ListNotations.
Open Scope Z_scope.

(** ** Platform types *)

Definition WCHAR := Z.
Definition BYTE := Z.
Definition wstring := list WCHAR.
Definition HANDLE := Z.
Definition HDC := Z.
Definition HWND := Z.
Definition HFONT := Z.
Definition COLORREF := Z.
Definition BOOL := Z.
Definition INT := Z.
Definition TRUE : BOOL := 1.
Definition NULL : HANDLE := 0.

(** The wide string literal [L"..."] of an ASCII text. *)
Definition L (s : string) : wstring :=
  map (fun a => Z.of_N (N_of_ascii a)) (list_ascii_of_string s).

(** [std::wstring_view::operator==]: same size and same code units. *)
Fixpoint wstring_eqb (a b : wstring) : bool :=
  match a, b with
  | [], [] => true
  | x :: a', y :: b' => (x =? y) && wstring_eqb a' b'
  | _, _ => false
  end.

(** ** Raw memory view of a [WCHAR] array (little endian, 2 bytes a unit) *)

Definition wchar_bytes (c : WCHAR) : list BYTE :=
  [Z.land c 255; Z.land (Z.shiftr c 8) 255].

Fixpoint wchars_to_bytes (l : list WCHAR) : list BYTE :=
  match l with
  | [] => []
  | c :: l' => wchar_bytes c ++ wchars_to_bytes l'
  end.

Fixpoint bytes_to_wchars (l : list BYTE) : list WCHAR :=
  match l with
  | lo :: hi :: l' => Z.lor lo (Z.shiftl hi 8) :: bytes_to_wchars l'
  | _ => []
  end.

(** [std::memset(dst, c, n)]: the first [n] bytes of [dst] become [c]. *)
Definition memset (dst : list BYTE) (c : BYTE) (n : nat) : list BYTE :=
  repeat c n ++ skipn n dst.

(** [std::memcpy(dst, src, n)]: the first [n] bytes of [dst] become those
    of [src]. *)
Definition memcpy (dst src : list BYTE) (n : nat) : list BYTE :=
  firstn n src ++ skipn n dst.

(** ** [LOGFONTW] *)

Definition LF_FACESIZE : nat := 32.

Record LOGFONTW := mkLOGFONTW {
  lfHeight : Z;
  lfWidth : Z;
  lfEscapement : Z;
  lfOrientation : Z;
  lfWeight : Z;
  lfItalic : BYTE;
  lfUnderline : BYTE;
  lfStrikeOut : BYTE;
  lfCharSet : BYTE;
  lfOutPrecision : BYTE;
  lfClipPrecision : BYTE;
  lfQuality : BYTE;
  lfPitchAndFamily : BYTE;
  lfFaceName : list WCHAR      (* WCHAR lfFaceName[LF_FACESIZE] *)
}.

Definition set_lfFaceName (font : LOGFONTW) (face : list WCHAR) : LOGFONTW :=
  mkLOGFONTW (lfHeight font) (lfWidth font) (lfEscapement font)
    (lfOrientation font) (lfWeight font) (lfItalic font) (lfUnderline font)
    (lfStrikeOut font) (lfCharSet font) (lfOutPrecision font)
    (lfClipPrecision font) (lfQuality font) (lfPitchAndFamily font) face.

(** [LOGFONTW{0}] *)
Definition LOGFONTW_zero : LOGFONTW :=
  mkLOGFONTW 0 0 0 0 0 0 0 0 0 0 0 0 0 (repeat 0 LF_FACESIZE).

Definition is_wchar (c : Z) : Prop := 0 <= c < 65536.

(** A font description is valid when its face-name field is an array of
    [LF_FACESIZE] 16-bit code units. *)
Definition valid_LOGFONTW (font : LOGFONTW) : Prop :=
  length (lfFaceName font) = LF_FACESIZE /\ Forall is_wchar (lfFaceName font).

(** [ARRAYSIZE(font->lfFaceName)]: the number of elements of the array. *)
Definition ARRAYSIZE_lfFaceName : nat := LF_FACESIZE.

(** [sizeof(decltype(font_name)::value_type)], i.e. [sizeof(wchar_t)]. *)
Definition sizeof_WCHAR : nat := 2.

(** ** Colour macros of the platform headers

    [RGB], [GetRValue], [GetGValue] and [GetBValue] are the [wingdi.h]
    macros; a [COLORREF] has the layout [0x00BBGGRR]. *)

Definition LOBYTE (w : Z) : BYTE := Z.land w 255.

Definition RGB (r g b : BYTE) : COLORREF :=
  Z.lor (Z.lor (LOBYTE r) (Z.shiftl (LOBYTE g) 8)) (Z.shiftl (LOBYTE b) 16).

Definition GetRValue (rgb : COLORREF) : BYTE := LOBYTE rgb.
Definition GetGValue (rgb : COLORREF) : BYTE :=
  LOBYTE (Z.shiftr (Z.land rgb 65535) 8).
Definition GetBValue (rgb : COLORREF) : BYTE := LOBYTE (Z.shiftr rgb 16).

(** [static_cast<uint8_t>] of an [int]. *)
Definition to_uint8 (x : Z) : BYTE := x mod 256.

(** ** The calls the mod makes to its collaborators *)

(** The two replacement functions, as the hooking facility sees them. *)
Inductive HookFn := draw_textw_hook_fn | draw_text_exw_hook_fn.

(** The two messages the mod passes to [Wh_Log]. *)
Inductive LogMsg :=
| LogFontTooLong (font_name : wstring) (size : nat)
| LogUninit.

Inductive Event :=
| EvGetCurrentObject (hdc : HDC) (ret : HANDLE)
| EvGetObjectW (h : HANDLE)
| EvCreateFontIndirectW (font : LOGFONTW) (ret : HFONT)
| EvSelectObject (hdc : HDC) (h : HANDLE)
| EvDeleteObject (h : HANDLE)
| EvGetBkColor (hdc : HDC) (ret : COLORREF)
| EvSetTextColor (hdc : HDC) (color : COLORREF)
| EvWindowFromDC (hdc : HDC) (ret : HWND)
| EvGetClassNameW (hwnd : HWND)
| EvGetParent (hwnd : HWND) (ret : HWND)
| EvWh_Log (msg : LogMsg)
| EvWh_GetSetting (key : wstring)
| EvLoadLibraryW (name : wstring) (ret : HANDLE)
| EvGetProcAddress (module : HANDLE) (name : string) (ret : Z)
| EvWh_SetFunctionHook (target : Z) (hook : HookFn)
| EvDrawTextW_original (hdc text cch lprc format : Z) (ret : INT)
| EvDrawTextExW_original (hdc text cch lprc format lpdtp : Z) (ret : INT).

Definition is_CreateFontIndirectW (e : Event) : bool :=
  match e with EvCreateFontIndirectW _ _ => true | _ => false end.
Definition is_DeleteObject (e : Event) : bool :=
  match e with EvDeleteObject _ => true | _ => false end.
Definition is_SetTextColor (e : Event) : bool :=
  match e with EvSetTextColor _ _ => true | _ => false end.
Definition is_GetBkColor (e : Event) : bool :=
  match e with EvGetBkColor _ _ => true | _ => false end.
Definition is_WindowFromDC (e : Event) : bool :=
  match e with EvWindowFromDC _ _ => true | _ => false end.
Definition is_GetParent (e : Event) : bool :=
  match e with EvGetParent _ _ => true | _ => false end.
Definition is_Wh_Log (e : Event) : bool :=
  match e with EvWh_Log _ => true | _ => false end.
Definition is_original (e : Event) : bool :=
  match e with
  | EvDrawTextW_original _ _ _ _ _ _ => true
  | EvDrawTextExW_original _ _ _ _ _ _ _ => true
  | _ => false
  end.

Definition count (p : Event -> bool) (tr : list Event) : nat :=
  length (filter p tr).

(** The Win32 and Windhawk operations over a world [W].  Queries read the
    world; the others also change it.  Results the mod discards (the
    previous object of [SelectObject], the previous colour of
    [SetTextColor], the status of [DeleteObject] and of
    [Wh_SetFunctionHook]) are left out.  [GetObjectW] yields [None] when it
    fails (it then leaves the caller's buffer as it was).  [ClassName] is
    the class name [GetClassNameW] finds for a window; it is empty when the
    call fails (result 0, nothing copied: the handle is no window any more),
    and the caller's buffer is then left as it was.
    [GetProcAddress] yields 0 for a name the module does not export.
    [DrawTextW] and [DrawTextExW] are the original entry points handed back
    by the hooking facility. *)
Record Win32 (W : Type) := {
  GetCurrentObject : W -> HDC -> HANDLE;
  GetObjectW : W -> HANDLE -> option LOGFONTW;
  CreateFontIndirectW : LOGFONTW -> W -> HFONT * W;
  SelectObject : HDC -> HANDLE -> W -> W;
  DeleteObject : HANDLE -> W -> W;
  GetBkColor : W -> HDC -> COLORREF;
  SetTextColor : HDC -> COLORREF -> W -> W;
  WindowFromDC : W -> HDC -> HWND;
  ClassName : W -> HWND -> wstring;
  GetParent : W -> HWND -> HWND;
  LoadLibraryW : W -> wstring -> HANDLE;
  GetProcAddress : W -> HANDLE -> string -> Z;
  Wh_SetFunctionHook : Z -> HookFn -> W -> W;
  Wh_GetIntSetting : W -> wstring -> Z;
  Wh_GetStringSetting : W -> wstring -> wstring;
  DrawTextW : HDC -> Z -> INT -> Z -> Z -> W -> INT * W;
  DrawTextExW : HDC -> Z -> INT -> Z -> Z -> Z -> W -> INT * W
}.

Arguments GetCurrentObject {W}.
Arguments GetObjectW {W}.
Arguments CreateFontIndirectW {W}.
Arguments SelectObject {W}.
Arguments DeleteObject {W}.
Arguments GetBkColor {W}.
Arguments SetTextColor {W}.
Arguments WindowFromDC {W}.
Arguments ClassName {W}.
Arguments GetParent {W}.
Arguments LoadLibraryW {W}.
Arguments GetProcAddress {W}.
Arguments Wh_SetFunctionHook {W}.
Arguments Wh_GetIntSetting {W}.
Arguments Wh_GetStringSetting {W}.
Arguments DrawTextW {W}.
Arguments DrawTextExW {W}.

(** ** The mod's process-wide settings ([namespace util] statics) *)

Record Globals := mkGlobals {
  s_font_name : wstring;
  s_custom_color : bool;
  s_text_r : Z;
  s_text_g : Z;
  s_text_b : Z
}.

Record Machine (W : Type) := mkMachine {
  globals : Globals;
  world : W
}.

Arguments mkMachine {W}.
Arguments globals {W}.
Arguments world {W}.

(** ** State-and-trace monad *)

Definition M (W A : Type) : Type := Machine W -> A * Machine W * list Event.

Definition ret {W A} (a : A) : M W A := fun m => (a, m, []).

Definition bind {W A B} (c : M W A) (k : A -> M W B) : M W B :=
  fun m =>
    let '(a, m1, t1) := c m in
    let '(b, m2, t2) := k a m1 in
    (b, m2, t1 ++ t2).

Declare Scope mod_scope.
Delimit Scope mod_scope with M.
Notation "x <- c ;; k" := (bind c (fun x => k))
  (at level 61, c at next level, right associativity) : mod_scope.
Notation "c ;; k" := (bind c (fun _ => k))
  (at level 61, right associativity) : mod_scope.

Definition result {W A} (r : A * Machine W * list Event) : A := fst (fst r).
Definition final {W A} (r : A * Machine W * list Event) : Machine W :=
  snd (fst r).
Definition events {W A} (r : A * Machine W * list Event) : list Event := snd r.

Definition get_globals {W} : M W Globals := fun m => (globals m, m, []).
Definition put_globals {W} (g : Globals) : M W unit :=
  fun m => (tt, mkMachine g (world m), []).

(** A query: reads the world, records the call. *)
Definition query {W A} (f : W -> A) (ev : A -> Event) : M W A :=
  fun m => let a := f (world m) in (a, m, [ev a]).

(** A command: changes the world, records the call. *)
Definition command {W A} (f : W -> A * W) (ev : A -> Event) : M W A :=
  fun m =>
    let '(a, w) := f (world m) in (a, mkMachine (globals m) w, [ev a]).

(** A call that touches nothing but the log. *)
Definition emit {W} (ev : Event) : M W unit := fun m => (tt, m, [ev]).

Open Scope mod_scope.

(** ** Calls into the collaborators, each recorded in the trace *)

Section Calls.
Context {W : Type}.
Variable api : Win32 W.

Definition call_GetCurrentObject (hdc : HDC) : M W HANDLE :=
  query (fun w => GetCurrentObject api w hdc) (EvGetCurrentObject hdc).

(** [GetObjectW(h, sizeof(font), &font)]: fills [font] on success. *)
Definition call_GetObjectW (h : HANDLE) (font : LOGFONTW) : M W LOGFONTW :=
  query (fun w => match GetObjectW api w h with
                  | Some lf => lf
                  | None => font
                  end)
        (fun _ => EvGetObjectW h).

Definition call_CreateFontIndirectW (font : LOGFONTW) : M W HFONT :=
  command (CreateFontIndirectW api font) (EvCreateFontIndirectW font).

Definition call_SelectObject (hdc : HDC) (h : HANDLE) : M W unit :=
  command (fun w => (tt, SelectObject api hdc h w))
          (fun _ => EvSelectObject hdc h).

Definition call_DeleteObject (h : HANDLE) : M W unit :=
  command (fun w => (tt, DeleteObject api h w)) (fun _ => EvDeleteObject h).

Definition call_GetBkColor (hdc : HDC) : M W COLORREF :=
  query (fun w => GetBkColor api w hdc) (EvGetBkColor hdc).

Definition call_SetTextColor (hdc : HDC) (color : COLORREF) : M W unit :=
  command (fun w => (tt, SetTextColor api hdc color w))
          (fun _ => EvSetTextColor hdc color).

Definition call_WindowFromDC (hdc : HDC) : M W HWND :=
  query (fun w => WindowFromDC api w hdc) (EvWindowFromDC hdc).

(** [GetClassNameW(hwnd, className, nMaxCount)], whose result the mod never
    looks at.  On success the buffer holds at most [nMaxCount - 1] code
    units of the class name, then the terminator; on failure it holds what
    it held before the call.  The value is the buffer after the call. *)
Definition call_GetClassNameW (hwnd : HWND) (className : wstring)
  (nMaxCount : nat) : M W wstring :=
  query (fun w => match ClassName api w hwnd with
                  | [] => className
                  | name => firstn (nMaxCount - 1) name
                  end)
        (fun _ => EvGetClassNameW hwnd).

Definition call_GetParent (hwnd : HWND) : M W HWND :=
  query (fun w => GetParent api w hwnd) (EvGetParent hwnd).

Definition call_LoadLibraryW (name : wstring) : M W HANDLE :=
  query (fun w => LoadLibraryW api w name) (EvLoadLibraryW name).

Definition call_GetProcAddress (module : HANDLE) (name : string) : M W Z :=
  query (fun w => GetProcAddress api w module name)
        (EvGetProcAddress module name).

Definition call_Wh_SetFunctionHook (target : Z) (hook : HookFn) : M W unit :=
  command (fun w => (tt, Wh_SetFunctionHook api target hook w))
          (fun _ => EvWh_SetFunctionHook target hook).

Definition call_Wh_GetIntSetting (key : wstring) : M W Z :=
  query (fun w => Wh_GetIntSetting api w key) (fun _ => EvWh_GetSetting key).

Definition call_Wh_GetStringSetting (key : wstring) : M W wstring :=
  query (fun w => Wh_GetStringSetting api w key)
        (fun _ => EvWh_GetSetting key).

Definition Wh_Log (msg : LogMsg) : M W unit := emit (EvWh_Log msg).

Definition draw_textw_original (hdc text cch lprc format : Z) : M W INT :=
  command (DrawTextW api hdc text cch lprc format)
          (EvDrawTextW_original hdc text cch lprc format).

Definition draw_text_exw_original (hdc text cch lprc format lpdtp : Z)
  : M W INT :=
  command (DrawTextExW api hdc text cch lprc format lpdtp)
          (EvDrawTextExW_original hdc text cch lprc format lpdtp).

End Calls.

(** ** The mod: [namespace util] *)

Module util.

(** [template <class T, auto Fn> class raii]: declares a converting
  constructor, a destructor and two [get] accessors; the default
  constructor is deleted.  No copy or move operation is declared, so the
  class has the implicitly-declared member-wise copy constructor. *)
Record raii (T : Type) := mk_raii { m_handle : T }.
Arguments mk_raii {T}.
Arguments m_handle {T}.

Section Raii.
Context {W T A : Type}.
Variable Fn : T -> M W A.

(** [raii(T handle) : m_handle(handle) {}] *)
Definition raii_ctor (handle : T) : raii T := mk_raii handle.

(** [~raii() { Fn(m_handle); }] *)
Definition raii_dtor (self : raii T) : M W unit :=
  Fn (m_handle self) ;; ret tt.

(** [auto get() const { return m_handle; }] *)
Definition raii_get (self : raii T) : T := m_handle self.

(** The implicitly-declared [raii(const raii&)]: member-wise copy. *)
Definition raii_copy_ctor (other : raii T) : raii T :=
  mk_raii (m_handle other).
End Raii.

Section Mod.
Context {W : Type}.
Variable api : Win32 W.

(** [using unique_hfont_t = raii<HFONT, DeleteObject>] *)
Definition unique_hfont_t := raii HFONT.
Definition unique_hfont_dtor : unique_hfont_t -> M W unit :=
  raii_dtor (call_DeleteObject api).

(** *** [change_font_in_struct] *)

Definition change_font_in_struct (font : LOGFONTW) : M W LOGFONTW :=
  g <- get_globals ;;
  let font_name := s_font_name g in
  if negb (wstring_eqb font_name (L "None")) then
    if (length font_name <=? 31)%nat then
      let face_name := wchars_to_bytes (lfFaceName font) in
      let face_name := memset face_name 0 ARRAYSIZE_lfFaceName in
      let face_name :=
        memcpy face_name (wchars_to_bytes font_name)
               (length font_name * sizeof_WCHAR) in
      ret (set_lfFaceName font (bytes_to_wchars face_name))
    else
      Wh_Log (LogFontTooLong font_name (length font_name)) ;;
      ret font
  else ret font.

(** *** [hdc_update_font] *)

Definition hdc_update_font (hdc : HDC) : M W (unique_hfont_t * LOGFONTW) :=
  h_font <- call_GetCurrentObject api hdc ;;
  let font := LOGFONTW_zero in
  font <- call_GetObjectW api h_font font ;;
  font <- change_font_in_struct font ;;
  h_new_font <- call_CreateFontIndirectW api font ;;
  call_SelectObject api hdc h_new_font ;;
  ret (raii_ctor h_new_font, font).

(** *** Settings *)

Definition update_settings : M W unit :=
  name <- call_Wh_GetStringSetting api (L "font.name") ;;
  custom_color <- call_Wh_GetIntSetting api (L "font.customColor") ;;
  text_r <- call_Wh_GetIntSetting api (L "font.textR") ;;
  text_g <- call_Wh_GetIntSetting api (L "font.textG") ;;
  text_b <- call_Wh_GetIntSetting api (L "font.textB") ;;
  put_globals (mkGlobals name (custom_color =? 1) text_r text_g text_b).

Definition is_custom_color_enabled : M W bool :=
  g <- get_globals ;; ret (s_custom_color g).

Definition get_custom_text_color : M W COLORREF :=
  g <- get_globals ;;
  let r := to_uint8 (Z.land (s_text_r g) 255) in
  let g' := to_uint8 (Z.land (s_text_g g) 255) in
  let b := to_uint8 (Z.land (s_text_b g) 255) in
  ret (RGB r g' b).

(** *** Context classification *)

Definition is_light_background (hdc : HDC) : M W bool :=
  bg_color <- call_GetBkColor api hdc ;;
  let r := GetRValue bg_color in
  let g := GetGValue bg_color in
  let b := GetBValue bg_color in
  let brightness := Z.quot (r * 299 + g * 587 + b * 114) 1000 in
  ret (128 <? brightness).

(** The [for (int i = 0; i < 3; i++)] loop of [is_explorer_file_view],
    with [n] iterations left.  [className] is the one buffer of the
    function, which every query writes into. *)
Fixpoint parent_loop (n : nat) (parent : HWND) (className : wstring)
  : M W bool :=
  match n with
  | O => ret false
  | S n' =>
      parent <- call_GetParent api parent ;;
      if parent =? NULL then ret false
      else
        className <- call_GetClassNameW api parent className 256 ;;
        let parentClassName := className in
        if wstring_eqb parentClassName (L "SHELLDLL_DefView") then ret true
        else parent_loop n' parent className
  end.

Definition is_explorer_file_view (hdc : HDC) : M W bool :=
  hwnd <- call_WindowFromDC api hdc ;;
  if hwnd =? NULL then ret false
  else
    let className : wstring := [] in        (* WCHAR className[256] = {0} *)
    className <- call_GetClassNameW api hwnd className 256 ;;
    let classNameView := className in
    if wstring_eqb classNameView (L "DirectUIHWND")
       || wstring_eqb classNameView (L "SysListView32")
    then ret true
    else parent_loop 3 hwnd className.

End Mod.
End util.

(** ** The mod: replacement entry points and lifecycle *)

Section Hooks.
Context {W : Type}.
Variable api : Win32 W.

Definition draw_textw_hook (hdc lpchText cchText lprc format : Z) : M W INT :=
  hf <- util.hdc_update_font api hdc ;;
  let h_new_font := fst hf in
  (enabled <- util.is_custom_color_enabled ;;
   if enabled then
     light <- util.is_light_background api hdc ;;
     if negb light then
       file_view <- util.is_explorer_file_view api hdc ;;
       if file_view then
         color <- util.get_custom_text_color ;;
         call_SetTextColor api hdc color
       else ret tt
     else ret tt
   else ret tt) ;;
  r <- draw_textw_original api hdc lpchText cchText lprc format ;;
  util.unique_hfont_dtor api h_new_font ;;
  ret r.

Definition draw_text_exw_hook (hdc lpchText cchText lprc format lpdtp : Z)
  : M W INT :=
  hf <- util.hdc_update_font api hdc ;;
  let h_new_font := fst hf in
  (enabled <- util.is_custom_color_enabled ;;
   if enabled then
     light <- util.is_light_background api hdc ;;
     if negb light then
       file_view <- util.is_explorer_file_view api hdc ;;
       if file_view then
         color <- util.get_custom_text_color ;;
         call_SetTextColor api hdc color
       else ret tt
     else ret tt
   else ret tt) ;;
  r <- draw_text_exw_original api hdc lpchText cchText lprc format lpdtp ;;
  util.unique_hfont_dtor api h_new_font ;;
  ret r.

(** *** Lifecycle entry points *)

Definition Wh_ModInit : M W BOOL :=
  util.update_settings api ;;
  user32 <- call_LoadLibraryW api (L "user32.dll") ;;
  draw_textw <- call_GetProcAddress api user32 "DrawTextW" ;;
  call_Wh_SetFunctionHook api draw_textw draw_textw_hook_fn ;;
  draw_text_exw <- call_GetProcAddress api user32 "DrawTextExW" ;;
  call_Wh_SetFunctionHook api draw_text_exw draw_text_exw_hook_fn ;;
  ret TRUE.

Definition Wh_ModSettingsChanged : M W unit := util.update_settings api.

Definition Wh_ModUninit : M W unit := Wh_Log LogUninit.

End Hooks.

(** ** A concrete desktop: an instance of the interface

    A small world in which the operations of [Win32] behave as the Win32
    documentation says, used to run the mod on examples: device contexts
    carry a selected font, a text colour, a background colour and an owning
    window; windows carry a class name and a parent; fonts live in a handle
    table.  A handle that is no window has no class name and no parent.
    [DeleteObject] fails, and deletes nothing, on an object that is still
    selected into a device context.  Each delegated draw call records the
    text colour and the font it found selected. *)

Module Desk.

Record DC := mkDC {
dc_font : HANDLE;
dc_text_color : COLORREF;
dc_bk_color : COLORREF;
dc_window : HWND
}.

Record Window := mkWindow {
wnd_class : wstring;
wnd_parent : HWND
}.

Record t := mk {
dcs : list (HDC * DC);
windows : list (HWND * Window);
fonts : list (HANDLE * LOGFONTW);
next_handle : HANDLE;
int_settings : list (wstring * Z);
string_settings : list (wstring * wstring);
exports : list (string * Z);
hooked : list (Z * HookFn);
drawn : list (HDC * COLORREF * HANDLE)
}.

Fixpoint lookup {K V} (eqb : K -> K -> bool) (k : K) (l : list (K * V))
: option V :=
match l with
| [] => None
| (k', v) :: l' => if eqb k k' then Some v else lookup eqb k l'
end.

Fixpoint update {K V} (eqb : K -> K -> bool) (k : K) (f : V -> V)
(l : list (K * V)) : list (K * V) :=
match l with
| [] => []
| (k', v) :: l' =>
    if eqb k k' then (k', f v) :: l' else (k', v) :: update eqb k f l'
end.

Definition remove {K V} (eqb : K -> K -> bool) (k : K) (l : list (K * V))
: list (K * V) :=
filter (fun kv => negb (eqb k (fst kv))) l.

Definition CLR_INVALID : COLORREF := 4294967295.

Definition with_dcs (w : t) (d : list (HDC * DC)) : t :=
mk d (windows w) (fonts w) (next_handle w) (int_settings w)
   (string_settings w) (exports w) (hooked w) (drawn w).

Definition with_fonts (w : t) (f : list (HANDLE * LOGFONTW)) (n : HANDLE) : t :=
mk (dcs w) (windows w) f n (int_settings w)
   (string_settings w) (exports w) (hooked w) (drawn w).

Definition with_hooked (w : t) (h : list (Z * HookFn)) : t :=
mk (dcs w) (windows w) (fonts w) (next_handle w) (int_settings w)
   (string_settings w) (exports w) h (drawn w).

Definition with_drawn (w : t) (d : list (HDC * COLORREF * HANDLE)) : t :=
mk (dcs w) (windows w) (fonts w) (next_handle w) (int_settings w)
   (string_settings w) (exports w) (hooked w) d.

(** Whether an object is selected into some device context. *)
Definition selected (h : HANDLE) (w : t) : bool :=
  existsb (fun kd => dc_font (snd kd) =? h) (dcs w).

Definition draw (hdc : HDC) (cch : INT) (w : t) : INT * t :=
match lookup Z.eqb hdc (dcs w) with
| Some dc =>
    (cch, with_drawn w (drawn w ++ [(hdc, dc_text_color dc, dc_font dc)]))
| None => (0, w)
end.

Definition api : Win32 t := {|
GetCurrentObject w hdc :=
  match lookup Z.eqb hdc (dcs w) with
  | Some dc => dc_font dc
  | None => NULL
  end;
GetObjectW w h := lookup Z.eqb h (fonts w);
CreateFontIndirectW font w :=
  (next_handle w,
   with_fonts w (fonts w ++ [(next_handle w, font)]) (next_handle w + 1));
SelectObject hdc h w :=
  with_dcs w (update Z.eqb hdc
    (fun dc => mkDC h (dc_text_color dc) (dc_bk_color dc) (dc_window dc))
    (dcs w));
DeleteObject h w :=
  if selected h w then w
  else with_fonts w (remove Z.eqb h (fonts w)) (next_handle w);
GetBkColor w hdc :=
  match lookup Z.eqb hdc (dcs w) with
  | Some dc => dc_bk_color dc
  | None => CLR_INVALID
  end;
SetTextColor hdc color w :=
  with_dcs w (update Z.eqb hdc
    (fun dc => mkDC (dc_font dc) color (dc_bk_color dc) (dc_window dc))
    (dcs w));
WindowFromDC w hdc :=
  match lookup Z.eqb hdc (dcs w) with
  | Some dc => dc_window dc
  | None => NULL
  end;
ClassName w hwnd :=
  match lookup Z.eqb hwnd (windows w) with
  | Some wnd => wnd_class wnd
  | None => []
  end;
GetParent w hwnd :=
  match lookup Z.eqb hwnd (windows w) with
  | Some wnd => wnd_parent wnd
  | None => NULL
  end;
LoadLibraryW w name := 1879048192;
GetProcAddress w module name :=
  match lookup String.eqb name (exports w) with
  | Some a => a
  | None => 0
  end;
Wh_SetFunctionHook target hook w :=
  with_hooked w (hooked w ++ [(target, hook)]);
Wh_GetIntSetting w key :=
  match lookup wstring_eqb key (int_settings w) with
  | Some v => v
  | None => 0
  end;
Wh_GetStringSetting w key :=
  match lookup wstring_eqb key (string_settings w) with
  | Some v => v
  | None => []
  end;
DrawTextW hdc text cch lprc format w := draw hdc cch w;
DrawTextExW hdc text cch lprc format lpdtp w := draw hdc cch w
|}.

End Desk.

(** ** Vocabulary for the statements *)

(** The [k]-th ancestor of a window: [k] parent links up, [NULL] as soon as
    a link is [NULL]. *)
Fixpoint nth_parent {W} (api : Win32 W) (w : W) (k : nat) (hwnd : HWND)
  : HWND :=
  match k with
  | O => hwnd
  | S k' =>
      let p := nth_parent api w k' hwnd in
      if p =? NULL then NULL else GetParent api w p
  end.

(** Some ancestor at distance [1..n] exists and has class [cls]. *)
Definition ancestor_within {W} (api : Win32 W) (w : W) (n : nat)
  (hwnd : HWND) (cls : wstring) : Prop :=
  exists k, (1 <= k <= n)%nat /\
            nth_parent api w k hwnd <> NULL /\
            ClassName api w (nth_parent api w k hwnd) = cls.

(** The class-name buffer after a [GetClassNameW] call on [hwnd], when it
    held [buf] before the call: the name found, cut to the 256-unit
    buffer, or [buf] again when the call fails. *)
Definition class_buffer {W} (api : Win32 W) (w : W) (buf : wstring)
  (hwnd : HWND) : wstring :=
  match ClassName api w hwnd with
  | [] => buf
  | name => firstn 255 name
  end.

(** A machine whose settings are given and whose world is [w]. *)
Definition machine_with {W} (g : Globals) (w : W) : Machine W := mkMachine g w.

(** One intercepted call, through either entry point. *)
Inductive DrawCall :=
| CallDrawTextW (hdc lpchText cchText lprc format : Z)
| CallDrawTextExW (hdc lpchText cchText lprc format lpdtp : Z).

Definition call_hdc (c : DrawCall) : HDC :=
  match c with
  | CallDrawTextW hdc _ _ _ _ => hdc
  | CallDrawTextExW hdc _ _ _ _ _ => hdc
  end.

Definition run_call {W} (api : Win32 W) (c : DrawCall) : M W INT :=
  match c with
  | CallDrawTextW hdc t n r f => draw_textw_hook api hdc t n r f
  | CallDrawTextExW hdc t n r f p => draw_text_exw_hook api hdc t n r f p
  end.

(** The host drawing through the hooked entry points, call after call. *)
Fixpoint run_calls {W} (api : Win32 W) (cs : list DrawCall) : M W unit :=
  match cs with
  | [] => ret tt
  | c :: cs' => run_call api c ;; run_calls api cs'
  end.

(** The event with which the original entry point is entered and left. *)
Definition original_event (c : DrawCall) (r : INT) : Event :=
  match c with
  | CallDrawTextW hdc t n rc f => EvDrawTextW_original hdc t n rc f r
  | CallDrawTextExW hdc t n rc f p => EvDrawTextExW_original hdc t n rc f p r
  end.

(** The original entry point itself, on the world. *)
Definition original_fn {W} (api : Win32 W) (c : DrawCall) : W -> INT * W :=
  match c with
  | CallDrawTextW hdc t n rc f => DrawTextW api hdc t n rc f
  | CallDrawTextExW hdc t n rc f p => DrawTextExW api hdc t n rc f p
  end.

(** The calls made while walking parent links. *)
Definition is_parent_walk (e : Event) : bool :=
  match e with
  | EvGetClassNameW _ => true
  | EvGetParent _ _ => true
  | _ => false
  end.

(** The last element of a trace, if any. *)
Definition last_event (tr : list Event) : option Event :=
  match rev tr with
  | [] => None
  | e :: _ => Some e
  end.

(** The description [hdc_update_font] obtains from the device context: that
    of the selected font, or the zeroed structure when [GetObjectW] fails. *)
Definition current_font {W} (api : Win32 W) (w : W) (hdc : HDC) : LOGFONTW :=
  match GetObjectW api w (GetCurrentObject api w hdc) with
  | Some lf => lf
  | None => LOGFONTW_zero
  end.

(** The conditional statement that both replacement functions contain,
    named so that the proofs can treat it once. *)
Definition color_override {W} (api : Win32 W) (hdc : HDC) : M W unit :=
  enabled <- util.is_custom_color_enabled ;;
  if enabled then
    light <- util.is_light_background api hdc ;;
    if negb light then
      file_view <- util.is_explorer_file_view api hdc ;;
      if file_view then
        color <- util.get_custom_text_color ;;
        call_SetTextColor api hdc color
      else ret tt
    else ret tt
  else ret tt.

(** The configured colour, as [get_custom_text_color] composes it. *)
Definition configured_color (g : Globals) : COLORREF :=
  RGB (to_uint8 (Z.land (s_text_r g) 255))
      (to_uint8 (Z.land (s_text_g g) 255))
      (to_uint8 (Z.land (s_text_b g) 255)).

(** ** A sample desktop for the examples *)

Module Sample.

(** A face-name array: the name, zero-padded to [LF_FACESIZE] units. *)
Definition face (s : string) : list WCHAR :=
L s ++ repeat 0 (LF_FACESIZE - length (L s)).

Definition segoe : LOGFONTW :=
mkLOGFONTW (-12) 0 0 0 400 0 0 0 1 0 0 5 0 (face "Segoe UI Variable Display").

Definition dark : COLORREF := RGB 32 32 32.
Definition white : COLORREF := RGB 255 255 255.
Definition black : COLORREF := RGB 0 0 0.
Definition grey : COLORREF := RGB 128 128 128.

(** Windows 100..106: an Explorer frame down to its item view; 110..114: a
  chain of plain windows under a shell view; 120: a popup menu. *)
Definition windows : list (HWND * Desk.Window) :=
[ (100, Desk.mkWindow (L "CabinetWClass") NULL);
  (101, Desk.mkWindow (L "ShellTabWindowClass") 100);
  (102, Desk.mkWindow (L "DUIViewWndClassName") 101);
  (103, Desk.mkWindow (L "DirectUIHWND") 102);
  (104, Desk.mkWindow (L "CtrlNotifySink") 103);
  (105, Desk.mkWindow (L "SHELLDLL_DefView") 104);
  (106, Desk.mkWindow (L "DirectUIHWND") 105);
  (107, Desk.mkWindow (L "SysListView32") 105);
  (110, Desk.mkWindow (L "SHELLDLL_DefView") NULL);
  (111, Desk.mkWindow (L "Static") 110);
  (112, Desk.mkWindow (L "Static") 111);
  (113, Desk.mkWindow (L "Static") 112);
  (114, Desk.mkWindow (L "Edit") 113);
  (120, Desk.mkWindow (L "#32768") NULL) ].

(** Device contexts: 1 the dark item view, 2 the light popup menu, 3 a
  memory context without a window, 4 the edit control four levels below
  the shell view, 5 the static three levels below it on mid grey, 6 the
  list-view control on a light background. *)
Definition dcs : list (HDC * Desk.DC) :=
[ (1, Desk.mkDC 500 black dark 106);
  (2, Desk.mkDC 500 black white 120);
  (3, Desk.mkDC 500 black black NULL);
  (4, Desk.mkDC 500 black dark 114);
  (5, Desk.mkDC 500 black grey 113);
  (6, Desk.mkDC 500 black white 107) ].

Definition desk (font_name : string) (custom_color r g b : Z) : Desk.t :=
Desk.mk dcs windows [(500, segoe)] 501
  [ (L "font.customColor", custom_color);
    (L "font.textR", r); (L "font.textG", g); (L "font.textB", b) ]
  [ (L "font.name", L font_name) ]
  [ ("DrawTextW"%string, 140737488355328);
    ("DrawTextExW"%string, 140737488359424) ]
  [] [].

(** The same desktop when [user32.dll] exports neither entry point. *)
Definition desk_without_exports : Desk.t :=
Desk.mk dcs windows [(500, segoe)] 501
  [ (L "font.customColor", 1);
    (L "font.textR", 255); (L "font.textG", 255); (L "font.textB", 255) ]
  [ (L "font.name", L "None") ] [] [] [].

(** The settings as [update_settings] leaves them on [desk]. *)
Definition settings (font_name : string) (custom_color : bool) (r g b : Z)
: Globals :=
mkGlobals (L font_name) custom_color r g b.

(** The statics before the first [update_settings]. *)
Definition initial_globals : Globals := mkGlobals [] true 255 255 255.

Definition long_name : string := "An Unreasonably Long Font Face Name".

End Sample.

(** A desktop caught while a window goes away: window 200, a shell view,
    still names 999 as its parent, but 999 has been destroyed and is no
    window any more; 201 is the item view inside 200. *)
Module Orphan.

Definition windows : list (HWND * Desk.Window) :=
  [ (200, Desk.mkWindow (L "SHELLDLL_DefView") 999);
    (201, Desk.mkWindow (L "DirectUIHWND") 200) ].

(** Device context 1 draws on the shell view 200 itself. *)
Definition dcs : list (HDC * Desk.DC) :=
  [ (1, Desk.mkDC 500 Sample.black Sample.dark 200) ].

Definition desk : Desk.t :=
  Desk.mk dcs windows [(500, Sample.segoe)] 501
    [ (L "font.customColor", 1);
      (L "font.textR", 255); (L "font.textG", 0); (L "font.textB", 0) ]
    [ (L "font.name", L "None") ] [] [] [].

End Orphan.

(** ** Further vocabulary *)

(** A face-name array read the way [CreateFontIndirectW] reads it: the code
    units before the first zero. *)
Fixpoint wcs (l : list WCHAR) : wstring :=
  match l with
  | [] => []
  | c :: l' => if c =? 0 then [] else c :: wcs l'
  end.

(** A wide string as [std::wstring_view] of a C string presents it: 16-bit
    code units, none of them zero. *)
Definition is_wstring (s : wstring) : Prop :=
  Forall (fun c => 0 < c < 65536) s.

Definition is_SelectObject (e : Event) : bool :=
  match e with EvSelectObject _ _ => true | _ => false end.
Definition is_Wh_SetFunctionHook (e : Event) : bool :=
  match e with EvWh_SetFunctionHook _ _ => true | _ => false end.
Definition is_Wh_GetSetting (e : Event) : bool :=
  match e with EvWh_GetSetting _ => true | _ => false end.

(** The calls that belong to initialisation and to settings reloads. *)
Definition is_lifecycle (e : Event) : bool :=
  match e with
  | EvWh_GetSetting _ => true
  | EvLoadLibraryW _ _ => true
  | EvGetProcAddress _ _ _ => true
  | EvWh_SetFunctionHook _ _ => true
  | _ => false
  end.

(** The calls of the font step of an intercepted call. *)
Definition is_font_step (e : Event) : bool :=
  match e with
  | EvGetCurrentObject _ _ => true
  | EvGetObjectW _ => true
  | EvWh_Log _ => true
  | EvCreateFontIndirectW _ _ => true
  | EvSelectObject _ _ => true
  | _ => false
  end.

(** The calls of the colour step of an intercepted call. *)
Definition is_color_step (e : Event) : bool :=
  match e with
  | EvGetBkColor _ _ => true
  | EvWindowFromDC _ _ => true
  | EvGetClassNameW _ => true
  | EvGetParent _ _ => true
  | EvSetTextColor _ _ => true
  | _ => false
  end.

(** The settings the store of a world holds, as [update_settings] reads
    them. *)
Definition stored_settings {W} (api : Win32 W) (w : W) : Globals :=
  mkGlobals (Wh_GetStringSetting api w (L "font.name"))
            (Wh_GetIntSetting api w (L "font.customColor") =? 1)
            (Wh_GetIntSetting api w (L "font.textR"))
            (Wh_GetIntSetting api w (L "font.textG"))
            (Wh_GetIntSetting api w (L "font.textB")).

(** More of the sample desktop: a font with a short face name, and device
    contexts on backgrounds of chosen colours. *)
Module Sample2.

Definition tahoma : LOGFONTW :=
  mkLOGFONTW (-11) 0 0 0 700 1 0 0 0 0 0 0 34 (Sample.face "Tahoma").

(** Device contexts: 1 the dark item view with the short-named font, 2 a
    pale yellow tooltip, 3 a white one, 4 a magenta surface, 5 a context
    whose selected font handle is stale, 6 a context on which
    [GetBkColor] fails. *)
Definition dcs : list (HDC * Desk.DC) :=
  [ (1, Desk.mkDC 600 Sample.black Sample.dark 106);
    (2, Desk.mkDC 600 Sample.black (RGB 255 255 225) 120);
    (3, Desk.mkDC 600 Sample.black Sample.white 120);
    (4, Desk.mkDC 600 Sample.black (RGB 255 0 255) 106);
    (5, Desk.mkDC 777 Sample.black Sample.dark 106);
    (6, Desk.mkDC 600 Sample.black Desk.CLR_INVALID 106) ].

Definition desk (font_name : string) (custom_color r g b : Z) : Desk.t :=
  Desk.mk dcs Sample.windows [(500, Sample.segoe); (600, tahoma)] 601
    [ (L "font.customColor", custom_color);
      (L "font.textR", r); (L "font.textG", g); (L "font.textB", b) ]
    [ (L "font.name", L font_name) ]
    [ ("DrawTextW"%string, 140737488355328);
      ("DrawTextExW"%string, 140737488359424) ]
    [] [].

End Sample2.

(** The font handles a trace creates, and the handles it deletes, in the
    order of the calls. *)
Definition created_handle (e : Event) : list HFONT :=
  match e with EvCreateFontIndirectW _ h => [h] | _ => [] end.
Definition deleted_handle (e : Event) : list HANDLE :=
  match e with EvDeleteObject h => [h] | _ => [] end.
Definition created_handles (tr : list Event) : list HFONT :=
  flat_map created_handle tr.
Definition deleted_handles (tr : list Event) : list HANDLE :=
  flat_map deleted_handle tr.

(** * Properties *)

(** ** Bit masks and colour packing *)

Lemma LOBYTE_mod (x : Z) : LOBYTE x = x mod 256.
Proof. unfold LOBYTE. change 255 with (Z.ones 8). now rewrite Z.land_ones. Qed.

Lemma LOBYTE_range (x : Z) : 0 <= LOBYTE x < 256.
Proof. rewrite LOBYTE_mod. apply Z.mod_pos_bound. lia. Qed.

Lemma LOBYTE_byte (x : Z) : 0 <= x < 256 -> LOBYTE x = x.
Proof. intros H. rewrite LOBYTE_mod. now apply Z.mod_small. Qed.

Lemma land_low_shiftl (a b k : Z) :
  0 <= k -> 0 <= a < 2 ^ k -> Z.land a (Z.shiftl b k) = 0.
Proof.
  intros Hk Ha. apply Z.bits_inj'. intros n Hn.
  rewrite Z.land_spec, Z.bits_0.
  destruct (Z.lt_ge_cases n k) as [Hlt | Hge].
  - rewrite Z.shiftl_spec_low by assumption. apply andb_false_r.
  - rewrite <- (Z.mod_small a (2 ^ k)) by assumption.
    rewrite Z.mod_pow2_bits_high by lia. reflexivity.
Qed.

Lemma lor_shiftl_add (a b k : Z) :
  0 <= k -> 0 <= a < 2 ^ k -> Z.lor a (Z.shiftl b k) = a + b * 2 ^ k.
Proof.
  intros Hk Ha.
  rewrite <- Z.lxor_lor by now apply land_low_shiftl.
  rewrite <- Z.add_nocarry_lxor by now apply land_low_shiftl.
  now rewrite Z.shiftl_mul_pow2.
Qed.

Lemma RGB_sum (r g b : Z) :
  RGB r g b = r mod 256 + 256 * (g mod 256) + 65536 * (b mod 256).
Proof.
  unfold RGB. rewrite !LOBYTE_mod.
  pose proof (Z.mod_pos_bound r 256 ltac:(lia)) as Hr.
  pose proof (Z.mod_pos_bound g 256 ltac:(lia)) as Hg.
  pose proof (Z.mod_pos_bound b 256 ltac:(lia)) as Hb.
  rewrite (lor_shiftl_add (r mod 256) (g mod 256) 8) by lia.
  rewrite lor_shiftl_add by lia.
  change (2 ^ 8) with 256. change (2 ^ 16) with 65536. lia.
Qed.

Lemma GetRValue_div (c : Z) : GetRValue c = c mod 256.
Proof. apply LOBYTE_mod. Qed.

Lemma GetGValue_div (c : Z) : GetGValue c = (c / 256) mod 256.
Proof.
  unfold GetGValue. rewrite LOBYTE_mod.
  change 65535 with (Z.ones 16). rewrite Z.land_ones by lia.
  rewrite Z.shiftr_div_pow2 by lia.
  change (2 ^ 16) with 65536. change (2 ^ 8) with 256.
  pose proof (Z.div_mod c 65536 ltac:(lia)).
  pose proof (Z.mod_pos_bound c 65536 ltac:(lia)).
  replace c with (c mod 65536 + (c / 65536 * 256) * 256) at 2 by lia.
  rewrite Z.div_add by lia. rewrite Z.add_mod by lia.
  rewrite Z.mod_mul by lia. rewrite Z.add_0_r. now rewrite Z.mod_mod by lia.
Qed.

Lemma GetBValue_div (c : Z) : GetBValue c = (c / 65536) mod 256.
Proof.
  unfold GetBValue. rewrite LOBYTE_mod.
  now rewrite Z.shiftr_div_pow2 by lia.
Qed.

Lemma RGB_components (r g b : Z) :
  0 <= r < 256 -> 0 <= g < 256 -> 0 <= b < 256 ->
  GetRValue (RGB r g b) = r /\
  GetGValue (RGB r g b) = g /\
  GetBValue (RGB r g b) = b.
Proof.
  intros Hr Hg Hb.
  rewrite GetRValue_div, GetGValue_div, GetBValue_div, RGB_sum.
  rewrite (Z.mod_small r), (Z.mod_small g), (Z.mod_small b) by assumption.
  repeat split.
  - replace (r + 256 * g + 65536 * b) with (r + (g + 256 * b) * 256) by lia.
    rewrite Z.mod_add by lia. now apply Z.mod_small.
  - replace (r + 256 * g + 65536 * b) with (r + (g + 256 * b) * 256) by lia.
    rewrite Z.div_add by lia. rewrite Z.div_small by assumption.
    rewrite Z.add_0_l. replace (g + 256 * b) with (g + b * 256) by lia.
    rewrite Z.mod_add by lia. now apply Z.mod_small.
  - replace (r + 256 * g + 65536 * b) with (r + 256 * g + b * 65536) by lia.
    rewrite Z.div_add by lia. rewrite (Z.div_small (r + 256 * g)) by lia.
    now apply Z.mod_small.
Qed.

Lemma to_uint8_land (x : Z) : to_uint8 (Z.land x 255) = x mod 256.
Proof.
  unfold to_uint8. change 255 with (Z.ones 8). rewrite Z.land_ones by lia.
  change (2 ^ 8) with 256. now rewrite Z.mod_mod by lia.
Qed.

(** ** Colour composition and luminance *)

(** C7. For every stored RGB triple, [get_custom_text_color] composes the
    colour from the low 8 bits of each channel only: the result is
    [RGB] of the three residues modulo 256, a channel may be replaced by its
    residue without changing the result, and red 300 gives the same colour
    as red 44. *)
Theorem get_custom_text_color_low_bits :
  forall (W : Type) (w : W) (name : wstring) (cc : bool) (r g b : Z),
    let color r g b :=
      result (util.get_custom_text_color
                (mkMachine (mkGlobals name cc r g b) w)) in
    color r g b = (r mod 256) + 256 * (g mod 256) + 65536 * (b mod 256)
    /\ color r g b = color (r mod 256) (g mod 256) (b mod 256)
    /\ color 300 g b = color 44 g b.
Proof.
  intros W w name cc r g b color.
  assert (Hc : forall r g b,
             color r g b
             = (r mod 256) + 256 * (g mod 256) + 65536 * (b mod 256)).
  { intros r0 g0 b0. unfold color, util.get_custom_text_color, result.
    cbn. rewrite !to_uint8_land, RGB_sum.
    now rewrite !Z.mod_mod by lia. }
  split; [| split].
  - apply Hc.
  - rewrite !Hc. now rewrite !Z.mod_mod by lia.
  - rewrite !Hc. reflexivity.
Qed.

(** The weighted sum stays far below [INT_MAX]: [int] arithmetic does not
    wrap in [is_light_background]. *)
Lemma luminance_no_overflow (c : COLORREF) :
  0 <= GetRValue c * 299 + GetGValue c * 587 + GetBValue c * 114 <= 255000
  /\ 255000 < 2 ^ 31.
Proof.
  pose proof (LOBYTE_range c). pose proof (LOBYTE_range (Z.shiftr c 16)).
  pose proof (LOBYTE_range (Z.shiftr (Z.land c 65535) 8)).
  unfold GetRValue, GetGValue, GetBValue. lia.
Qed.

Lemma luminance_quot (r g b : Z) :
  0 <= r -> 0 <= g -> 0 <= b ->
  Z.quot (r * 299 + g * 587 + b * 114) 1000
  = (299 * r + 587 * g + 114 * b) / 1000.
Proof.
  intros. rewrite Z.quot_div_nonneg by lia. f_equal. lia.
Qed.

Lemma is_light_background_result {W} (api : Win32 W) (m : Machine W) hdc :
  result (util.is_light_background api hdc m)
  = let c := GetBkColor api (world m) hdc in
    128 <? (299 * GetRValue c + 587 * GetGValue c + 114 * GetBValue c) / 1000.
Proof.
  unfold util.is_light_background, result. cbn.
  rewrite luminance_quot; try apply LOBYTE_range. reflexivity.
Qed.

(** C5. [is_light_background] splits the background colour of the device
    context into its red, green and blue bytes, takes
    [(299 R + 587 G + 114 B) / 1000] in integer arithmetic and answers true
    exactly when that exceeds 128: white is light, black is not, and mid
    grey (128,128,128), whose luminance is exactly 128, is not. *)
Theorem is_light_background_luminance :
  forall (W : Type) (api : Win32 W) (m : Machine W) (hdc : HDC),
    let light := result (util.is_light_background api hdc m) in
    let bk := GetBkColor api (world m) hdc in
    (forall r g b,
        0 <= r < 256 -> 0 <= g < 256 -> 0 <= b < 256 ->
        bk = RGB r g b ->
        (light = true <-> 128 < (299 * r + 587 * g + 114 * b) / 1000))
    /\ (bk = RGB 255 255 255 -> light = true)
    /\ (bk = RGB 0 0 0 -> light = false)
    /\ (bk = RGB 128 128 128 ->
        (299 * 128 + 587 * 128 + 114 * 128) / 1000 = 128 /\ light = false).
Proof.
  intros W api m hdc light bk.
  assert (Hgen : forall r g b,
             0 <= r < 256 -> 0 <= g < 256 -> 0 <= b < 256 ->
             bk = RGB r g b ->
             light = (128 <? (299 * r + 587 * g + 114 * b) / 1000)).
  { intros r g b Hr Hg Hb Hbk. unfold light.
    rewrite is_light_background_result. fold bk. cbv zeta. rewrite Hbk.
    destruct (RGB_components r g b Hr Hg Hb) as (-> & -> & ->).
    reflexivity. }
  split; [| split; [| split]].
  - intros r g b Hr Hg Hb Hbk. rewrite (Hgen r g b) by assumption.
    apply Z.ltb_lt.
  - intros H. now rewrite (Hgen 255 255 255) by (lia || assumption).
  - intros H. now rewrite (Hgen 0 0 0) by (lia || assumption).
  - intros H. split; [reflexivity |].
    now rewrite (Hgen 128 128 128) by (lia || assumption).
Qed.

Lemma is_light_background_luminance_witness :
  let m := mkMachine Sample.initial_globals (Sample.desk "None" 1 255 0 0) in
  GetBkColor Desk.api (world m) 5 = RGB 128 128 128
  /\ result (util.is_light_background Desk.api 5 m) = false
  /\ result (util.is_light_background Desk.api 2 m) = true
  /\ result (util.is_light_background Desk.api 3 m) = false.
Proof.
  intros m.
  destruct (is_light_background_luminance Desk.t Desk.api m 5)
    as (_ & _ & _ & Hgrey).
  destruct (is_light_background_luminance Desk.t Desk.api m 2)
    as (_ & Hwhite & _ & _).
  destruct (is_light_background_luminance Desk.t Desk.api m 3)
    as (_ & _ & Hblack & _).
  split; [reflexivity |].
  split; [apply Hgrey; reflexivity |].
  split; [apply Hwhite; reflexivity | apply Hblack; reflexivity].
Defined.

(** ** Wide strings and their raw bytes *)

Lemma wstring_eqb_eq (a b : wstring) : wstring_eqb a b = true <-> a = b.
Proof.
  revert b. induction a as [| x a IH]; intros [| y b]; cbn;
    try (split; [discriminate | congruence]); try tauto.
  rewrite andb_true_iff, Z.eqb_eq, IH. split.
  - intros [-> ->]. reflexivity.
  - intros H. injection H as -> ->. tauto.
Qed.

Lemma wstring_eqb_neq (a b : wstring) : wstring_eqb a b = false <-> a <> b.
Proof.
  rewrite <- wstring_eqb_eq. destruct (wstring_eqb a b); split; congruence.
Qed.

Lemma wchars_to_bytes_app (a b : list WCHAR) :
  wchars_to_bytes (a ++ b) = wchars_to_bytes a ++ wchars_to_bytes b.
Proof.
  induction a as [| c a IH]; cbn; [reflexivity | now rewrite IH].
Qed.

Lemma wchars_to_bytes_length (l : list WCHAR) :
  length (wchars_to_bytes l) = (length l * 2)%nat.
Proof. induction l as [| c l IH]; cbn; [reflexivity | now rewrite IH]. Qed.

Lemma wchars_to_bytes_repeat0 (n : nat) :
  wchars_to_bytes (repeat 0 n) = repeat 0 (n * 2).
Proof. induction n as [| n IH]; cbn; [reflexivity | now rewrite IH]. Qed.

Lemma wchars_to_bytes_skipn (n : nat) (l : list WCHAR) :
  skipn (n * 2) (wchars_to_bytes l) = wchars_to_bytes (skipn n l).
Proof.
  revert l. induction n as [| n IH]; intros [| c l]; cbn; try reflexivity.
  apply IH.
Qed.

Lemma wchars_to_bytes_firstn (n : nat) (l : list WCHAR) :
  firstn (n * 2) (wchars_to_bytes l) = wchars_to_bytes (firstn n l).
Proof.
  revert l. induction n as [| n IH]; intros [| c l]; cbn; try reflexivity.
  now rewrite IH.
Qed.

Lemma wchar_roundtrip (c : WCHAR) :
  is_wchar c ->
  Z.lor (Z.land c 255) (Z.shiftl (Z.land (Z.shiftr c 8) 255) 8) = c.
Proof.
  unfold is_wchar. intros Hc.
  change 255 with (Z.ones 8). rewrite !Z.land_ones by lia.
  rewrite Z.shiftr_div_pow2 by lia. change (2 ^ 8) with 256.
  rewrite lor_shiftl_add by (change (2 ^ 8) with 256;
                             pose proof (Z.mod_pos_bound c 256); lia).
  change (2 ^ 8) with 256.
  rewrite (Z.mod_small (c / 256)).
  - pose proof (Z.div_mod c 256). lia.
  - split; [apply Z.div_pos; lia | apply Z.div_lt_upper_bound; lia].
Qed.

Lemma bytes_to_wchars_to_bytes (l : list WCHAR) :
  Forall is_wchar l -> bytes_to_wchars (wchars_to_bytes l) = l.
Proof.
  induction 1 as [| c l Hc Hl IH]; cbn; [reflexivity |].
  now rewrite wchar_roundtrip, IH.
Qed.

Lemma is_wchar_zero : is_wchar 0.
Proof. unfold is_wchar. lia. Qed.

Lemma Forall_skipn {A} (P : A -> Prop) (n : nat) (l : list A) :
  Forall P l -> Forall P (skipn n l).
Proof.
  revert l. induction n as [| n IH]; intros l H; [exact H |].
  destruct H; cbn; [constructor | now apply IH].
Qed.

Lemma Forall_repeat {A} (P : A -> Prop) (x : A) (n : nat) :
  P x -> Forall P (repeat x n).
Proof. intros Hx. induction n; cbn; constructor; assumption. Qed.

(** ** [change_font_in_struct] *)

(** What the [memset]/[memcpy] pair does to the face-name array, seen as
    code units: the first [ARRAYSIZE] bytes, that is the first 16 units,
    are cleared, then the name is laid over the front. *)
Lemma face_name_overwrite (face name : list WCHAR) :
  Forall is_wchar face -> Forall is_wchar name ->
  (length name <= length (repeat 0%Z 16 ++ skipn 16 face))%nat ->
  bytes_to_wchars
    (memcpy (memset (wchars_to_bytes face) 0 ARRAYSIZE_lfFaceName)
            (wchars_to_bytes name) (length name * sizeof_WCHAR))
  = name ++ skipn (length name) (repeat 0 16 ++ skipn 16 face).
Proof.
  intros Hface Hname Hlen. unfold memcpy, memset.
  change ARRAYSIZE_lfFaceName with (16 * 2)%nat.
  change sizeof_WCHAR with 2%nat.
  rewrite wchars_to_bytes_skipn, <- wchars_to_bytes_repeat0.
  rewrite <- wchars_to_bytes_app, wchars_to_bytes_skipn.
  rewrite wchars_to_bytes_firstn, firstn_all.
  rewrite <- wchars_to_bytes_app.
  apply bytes_to_wchars_to_bytes.
  apply Forall_app. split; [assumption |].
  apply Forall_skipn, Forall_app. split.
  - apply Forall_repeat, is_wchar_zero.
  - now apply Forall_skipn.
Qed.

Lemma change_font_in_struct_none {W} (m : Machine W) (font : LOGFONTW) :
  s_font_name (globals m) = L "None" ->
  util.change_font_in_struct font m = (font, m, []).
Proof.
  intros H. unfold util.change_font_in_struct, bind, get_globals.
  rewrite H. reflexivity.
Qed.

Lemma change_font_in_struct_fits {W} (m : Machine W) (font : LOGFONTW) :
  let name := s_font_name (globals m) in
  name <> L "None" -> (length name <= 31)%nat ->
  valid_LOGFONTW font -> Forall is_wchar name ->
  util.change_font_in_struct font m
  = (set_lfFaceName font
       (name ++ skipn (length name)
                      (repeat 0 16 ++ skipn 16 (lfFaceName font))),
     m, []).
Proof.
  intros name Hne Hlen [Hsz Hface] Hname.
  unfold util.change_font_in_struct, bind, get_globals. fold name.
  apply wstring_eqb_neq in Hne. rewrite Hne.
  apply Nat.leb_le in Hlen. rewrite Hlen. cbn [negb].
  unfold ret. rewrite face_name_overwrite; try assumption.
  - reflexivity.
  - rewrite length_app, repeat_length, length_skipn, Hsz.
    apply Nat.leb_le in Hlen. unfold LF_FACESIZE. lia.
Qed.

(** When the upper half of the old array holds nothing but zeros (the old
    name had at most 16 units and was zero-padded), the new array is the
    override name followed by zeros only. *)
Lemma change_font_in_struct_clean {W} (m : Machine W) (font : LOGFONTW) :
  let name := s_font_name (globals m) in
  name <> L "None" -> (length name <= 31)%nat ->
  valid_LOGFONTW font -> Forall is_wchar name ->
  skipn 16 (lfFaceName font) = repeat 0 16 ->
  lfFaceName (result (util.change_font_in_struct font m))
  = name ++ repeat 0 (LF_FACESIZE - length name).
Proof.
  intros name Hne Hlen Hvalid Hname Hupper.
  pose proof (change_font_in_struct_fits m font Hne Hlen Hvalid Hname) as E.
  fold name in E. rewrite E. unfold result, set_lfFaceName.
  cbn [fst lfFaceName]. rewrite Hupper.
  rewrite <- repeat_app. f_equal.
  clear -Hlen. generalize (length name) Hlen. intros n Hn.
  unfold LF_FACESIZE.
  do 32 (destruct n as [| n]; [reflexivity |]). lia.
Qed.

Lemma Forall_is_wchar_dec (l : list WCHAR) :
  forallb (fun c => (0 <=? c) && (c <? 65536)) l = true -> Forall is_wchar l.
Proof.
  intros H. apply Forall_forall. intros c Hc.
  rewrite forallb_forall in H. specialize (H c Hc).
  apply andb_true_iff in H. unfold is_wchar. lia.
Qed.

Lemma valid_segoe : valid_LOGFONTW Sample.segoe.
Proof.
  split; [reflexivity |]. apply Forall_is_wchar_dec. reflexivity.
Qed.

(** C1. The claim: for a valid font description and an override name of at
    most 31 units other than "None", [change_font_in_struct] leaves the
    32-unit face-name array equal to the override name followed by zeros
    only.  The code clears [ARRAYSIZE(lfFaceName)] = 32 bytes, which is the
    first 16 units only, so units 16..31 of the previous name survive
    wherever the new name does not cover them.  On the valid description
    with face "Segoe UI Variable Display" (25 units): the override
    "Segoe UI Semibold" (17 units) yields the array
    "Segoe UI Semibold Display", and the override "Arial" yields "Arial",
    eleven zeros, then "e Display"; neither is the name followed by zeros. *)
Theorem change_font_in_struct_keeps_residue :
  forall (W : Type) (w : W),
    let run name :=
      lfFaceName
        (result (util.change_font_in_struct Sample.segoe
                   (mkMachine (Sample.settings name true 255 255 255) w))) in
    let padded name := L name ++ repeat 0 (LF_FACESIZE - length (L name)) in
    valid_LOGFONTW Sample.segoe
    /\ (length (L "Segoe UI Semibold") <= 31)%nat
    /\ (length (L "Arial") <= 31)%nat
    /\ run "Segoe UI Semibold"%string
       = padded "Segoe UI Semibold Display"%string
    /\ run "Segoe UI Semibold"%string <> padded "Segoe UI Semibold"%string
    /\ run "Arial"%string
       = L "Arial" ++ repeat 0 11 ++ L "e Display" ++ repeat 0 7
    /\ run "Arial"%string <> padded "Arial"%string.
Proof.
  intros W w run padded.
  split; [exact valid_segoe |].
  split; [cbn; lia |].
  split; [cbn; lia |].
  split; [reflexivity |].
  split; [intros H; vm_compute in H; discriminate |].
  split; [reflexivity |].
  intros H; vm_compute in H; discriminate.
Qed.

(** C6. For every override name of more than 31 units,
    [change_font_in_struct] returns the font description it was given,
    every field and every byte of the face name included, leaves the
    settings and the world alone, and makes exactly one call, the
    diagnostic [Wh_Log] carrying the name and its size. *)
Theorem change_font_in_struct_too_long :
  forall (W : Type) (m : Machine W) (font : LOGFONTW),
    let name := s_font_name (globals m) in
    (31 < length name)%nat ->
    let r := util.change_font_in_struct font m in
    result r = font
    /\ wchars_to_bytes (lfFaceName (result r))
       = wchars_to_bytes (lfFaceName font)
    /\ final r = m
    /\ events r = [EvWh_Log (LogFontTooLong name (length name))]
    /\ count is_Wh_Log (events r) = 1%nat.
Proof.
  intros W m font name Hlen r.
  assert (E : r = (font, m, [EvWh_Log (LogFontTooLong name (length name))])).
  { unfold r, util.change_font_in_struct, bind, get_globals. fold name.
    assert (Hne : wstring_eqb name (L "None") = false).
    { apply wstring_eqb_neq. intros Heq. rewrite Heq in Hlen.
      cbn in Hlen. lia. }
    rewrite Hne. cbn [negb].
    assert (Hgt : (length name <=? 31)%nat = false)
      by (apply Nat.leb_gt; exact Hlen).
    rewrite Hgt. reflexivity. }
  rewrite E. repeat split.
Qed.

Lemma change_font_in_struct_too_long_witness :
  let m := mkMachine (Sample.settings Sample.long_name true 255 255 255) tt in
  (31 < length (s_font_name (globals m)))%nat
  /\ result (util.change_font_in_struct Sample.segoe m) = Sample.segoe
  /\ count is_Wh_Log (events (util.change_font_in_struct Sample.segoe m))
     = 1%nat.
Proof.
  intros m.
  assert (Hlen : (31 < length (s_font_name (globals m)))%nat)
    by (vm_compute; lia).
  destruct (change_font_in_struct_too_long unit m Sample.segoe Hlen)
    as (Hres & _ & _ & _ & Hcount).
  split; [exact Hlen |]. split; [exact Hres | exact Hcount].
Defined.

(** ** File-view classification *)

Lemma firstn_eq_short {A} (n : nat) (s t : list A) :
  (length t < n)%nat -> firstn n s = t <-> s = t.
Proof.
  intros Hlt. split.
  - intros H. assert (Hl : length (firstn n s) = length t) by now rewrite H.
    rewrite length_firstn in Hl.
    rewrite firstn_all2 in H by lia. exact H.
  - intros ->. apply firstn_all2. lia.
Qed.

(** Comparing the class-name buffer with a short literal after a query:
    either the window has that class, or the query failed and the buffer
    already held the literal. *)
Lemma class_buffer_eqb {W} (api : Win32 W) (w : W) (buf : wstring)
  (hwnd : HWND) (t : wstring) :
  (0 < length t < 255)%nat ->
  wstring_eqb (class_buffer api w buf hwnd) t = true
  <-> ClassName api w hwnd = t \/ (ClassName api w hwnd = [] /\ buf = t).
Proof.
  intros Hlt. rewrite wstring_eqb_eq. unfold class_buffer.
  destruct (ClassName api w hwnd) as [| c name] eqn:E; cbv beta iota.
  - split; [intros ->; right; tauto |].
    intros [<- | [_ H]]; [cbn in Hlt; lia | exact H].
  - pose proof (firstn_eq_short 255 (c :: name) t ltac:(lia)) as Hcut.
    split; [intros H; left; apply Hcut; exact H |].
    intros [H | [H _]]; [apply Hcut; exact H | discriminate].
Qed.

Section FileView.
Context {W : Type}.
Variable api : Win32 W.

Lemma nth_parent_null (w : W) (k : nat) : nth_parent api w (S k) NULL = NULL.
Proof. induction k as [| k IH]; [reflexivity |]. cbn in *. now rewrite IH. Qed.

Lemma nth_parent_shift (w : W) (k : nat) (hwnd : HWND) :
  hwnd <> NULL ->
  nth_parent api w (S k) hwnd = nth_parent api w k (GetParent api w hwnd).
Proof.
  intros Hh. induction k as [| k IH].
  - cbn. apply Z.eqb_neq in Hh. now rewrite Hh.
  - change (nth_parent api w (S (S k)) hwnd)
      with (if nth_parent api w (S k) hwnd =? NULL then NULL
            else GetParent api w (nth_parent api w (S k) hwnd)).
    rewrite IH. reflexivity.
Qed.

Lemma nth_parent_stuck (w : W) (k : nat) (hwnd : HWND) :
  GetParent api w hwnd = NULL -> hwnd <> NULL ->
  nth_parent api w (S k) hwnd = NULL.
Proof.
  intros Hp Hh. rewrite nth_parent_shift, Hp by assumption.
  destruct k; [reflexivity | apply nth_parent_null].
Qed.

(** One round of the loop: a shell view within [S n] links is either the
    parent itself or within [n] links of the parent. *)
Lemma ancestor_within_S (w : W) (n : nat) (hwnd : HWND) (cls : wstring) :
  hwnd <> NULL ->
  ancestor_within api w (S n) hwnd cls
  <-> GetParent api w hwnd <> NULL
      /\ (ClassName api w (GetParent api w hwnd) = cls
          \/ ancestor_within api w n (GetParent api w hwnd) cls).
Proof.
  intros Hh. unfold ancestor_within. split.
  - intros (k & Hk & Hnn & Hcls).
    destruct k as [| k]; [lia |].
    rewrite nth_parent_shift in Hnn, Hcls by assumption.
    assert (Hp : GetParent api w hwnd <> NULL).
    { intros Hp. rewrite Hp in Hnn.
      destruct k; [now apply Hnn | now rewrite nth_parent_null in Hnn]. }
    split; [exact Hp |].
    destruct k as [| k]; [left; exact Hcls |].
    right. exists (S k). repeat split; try assumption; lia.
  - intros (Hp & [Hcls | (k & Hk & Hnn & Hcls)]).
    + exists 1%nat. rewrite nth_parent_shift by assumption.
      repeat split; try assumption; lia.
    + exists (S k). rewrite nth_parent_shift by assumption.
      repeat split; try assumption; lia.
Qed.

Lemma parent_loop_step (n : nat) (hwnd : HWND) (buf : wstring)
  (m : Machine W) :
  util.parent_loop api (S n) hwnd buf m
  = let p := GetParent api (world m) hwnd in
    if p =? NULL then (false, m, [EvGetParent hwnd p])
    else
      let buf' := class_buffer api (world m) buf p in
      if wstring_eqb buf' (L "SHELLDLL_DefView")
      then (true, m, [EvGetParent hwnd p; EvGetClassNameW p])
      else let '(b, m', t) := util.parent_loop api n p buf' m in
           (b, m', EvGetParent hwnd p :: EvGetClassNameW p :: t).
Proof.
  cbn [util.parent_loop]. unfold bind, call_GetParent, query. cbv zeta.
  destruct (GetParent api (world m) hwnd =? NULL); [reflexivity |].
  unfold call_GetClassNameW, query. cbv zeta.
  change (match ClassName api (world m) (GetParent api (world m) hwnd) with
          | [] => buf
          | (z :: l) as name => firstn (256 - 1) name
          end)
    with (class_buffer api (world m) buf (GetParent api (world m) hwnd)).
  destruct (wstring_eqb _ (L "SHELLDLL_DefView")); [reflexivity |].
  destruct (util.parent_loop api n _ _ m) as [[b m'] t]. reflexivity.
Qed.

Lemma parent_loop_final (n : nat) (hwnd : HWND) (buf : wstring)
  (m : Machine W) :
  final (util.parent_loop api n hwnd buf m) = m.
Proof.
  revert hwnd buf. induction n as [| n IH]; intros hwnd buf; [reflexivity |].
  rewrite parent_loop_step. cbv zeta.
  destruct (_ =? NULL); [reflexivity |].
  destruct (wstring_eqb _ (L "SHELLDLL_DefView")); [reflexivity |].
  specialize (IH (GetParent api (world m) hwnd)
                 (class_buffer api (world m) buf
                               (GetParent api (world m) hwnd))).
  destruct (util.parent_loop api n _ _ m) as [[b m'] t]. exact IH.
Qed.

Lemma parent_loop_links (n : nat) (hwnd : HWND) (buf : wstring)
  (m : Machine W) :
  (count is_GetParent (events (util.parent_loop api n hwnd buf m)) <= n)%nat.
Proof.
  revert hwnd buf. induction n as [| n IH]; intros hwnd buf; [cbn; lia |].
  rewrite parent_loop_step. cbv zeta.
  destruct (_ =? NULL); [cbn; lia |].
  destruct (wstring_eqb _ (L "SHELLDLL_DefView")); [cbn; lia |].
  specialize (IH (GetParent api (world m) hwnd)
                 (class_buffer api (world m) buf
                               (GetParent api (world m) hwnd))).
  destruct (util.parent_loop api n _ _ m) as [[b m'] t].
  unfold events, count in *. cbn in *. lia.
Qed.

(** The loop answers true when a shell view is found within [n] links, and
    also when the buffer it starts with already reads "SHELLDLL_DefView"
    and the query on the parent fails, so that the old content is compared
    once more. *)
Lemma parent_loop_result (n : nat) (hwnd : HWND) (buf : wstring)
  (m : Machine W) :
  hwnd <> NULL ->
  result (util.parent_loop api n hwnd buf m) = true
  <-> ancestor_within api (world m) n hwnd (L "SHELLDLL_DefView")
      \/ ((1 <= n)%nat
          /\ buf = L "SHELLDLL_DefView"
          /\ GetParent api (world m) hwnd <> NULL
          /\ ClassName api (world m) (GetParent api (world m) hwnd) = []).
Proof.
  revert hwnd buf. induction n as [| n IH]; intros hwnd buf Hh.
  - cbn. split; [discriminate |].
    intros [(k & Hk & _) | (Hn & _)]; lia.
  - rewrite ancestor_within_S by assumption.
    rewrite parent_loop_step. cbv zeta.
    destruct (Z.eqb_spec (GetParent api (world m) hwnd) NULL) as [Hp | Hp].
    + cbn. split; [discriminate | tauto].
    + pose proof (class_buffer_eqb api (world m) buf
                    (GetParent api (world m) hwnd) (L "SHELLDLL_DefView")
                    ltac:(cbn; lia)) as Hbuf.
      destruct (wstring_eqb _ (L "SHELLDLL_DefView")) eqn:Hcls.
      * cbn. split; [| reflexivity]. intros _.
        destruct (proj1 Hbuf eq_refl) as [Hc | [Hfail Hstale]].
        -- left. split; [exact Hp | left; exact Hc].
        -- right. repeat split; try assumption. lia.
      * assert (Hno : ~ (ClassName api (world m) (GetParent api (world m) hwnd)
                         = L "SHELLDLL_DefView"
                         \/ (ClassName api (world m)
                               (GetParent api (world m) hwnd) = []
                             /\ buf = L "SHELLDLL_DefView"))).
        { intros H. apply Hbuf in H. congruence. }
        specialize (IH (GetParent api (world m) hwnd)
                       (class_buffer api (world m) buf
                          (GetParent api (world m) hwnd)) Hp).
        destruct (util.parent_loop api n _ _ m) as [[b m'] t].
        unfold result in *. cbn [fst] in *. rewrite IH.
        assert (Hfresh : class_buffer api (world m) buf
                           (GetParent api (world m) hwnd)
                         <> L "SHELLDLL_DefView")
          by (apply wstring_eqb_neq; exact Hcls).
        split.
        -- intros [Ha | (_ & Hb & _)]; [left; tauto | contradiction].
        -- intros [(_ & [Hc | Ha]) | (_ & Hb & _ & Hf)].
           ++ exfalso. apply Hno. left. exact Hc.
           ++ left. exact Ha.
           ++ exfalso. apply Hno. right. split; assumption.
Qed.

Lemma is_explorer_file_view_run (hdc : HDC) (m : Machine W) :
  util.is_explorer_file_view api hdc m
  = let hwnd := WindowFromDC api (world m) hdc in
    if hwnd =? NULL then (false, m, [EvWindowFromDC hdc hwnd])
    else
      let cls := class_buffer api (world m) [] hwnd in
      if wstring_eqb cls (L "DirectUIHWND")
         || wstring_eqb cls (L "SysListView32")
      then (true, m, [EvWindowFromDC hdc hwnd; EvGetClassNameW hwnd])
      else let '(b, m', t) := util.parent_loop api 3 hwnd cls m in
           (b, m', EvWindowFromDC hdc hwnd :: EvGetClassNameW hwnd :: t).
Proof.
  unfold util.is_explorer_file_view, bind, call_WindowFromDC, query.
  cbv zeta.
  destruct (WindowFromDC api (world m) hdc =? NULL); [reflexivity |].
  unfold call_GetClassNameW, query. cbv zeta.
  change (match ClassName api (world m) (WindowFromDC api (world m) hdc) with
          | [] => []
          | (z :: l) as name => firstn (256 - 1) name
          end)
    with (class_buffer api (world m) [] (WindowFromDC api (world m) hdc)).
  destruct (_ || _); [reflexivity |].
  destruct (util.parent_loop api 3 _ _ m) as [[b m'] t]. reflexivity.
Qed.

Lemma is_explorer_file_view_final (hdc : HDC) (m : Machine W) :
  final (util.is_explorer_file_view api hdc m) = m.
Proof.
  rewrite is_explorer_file_view_run. cbv zeta.
  destruct (_ =? NULL); [reflexivity |].
  destruct (_ || _); [reflexivity |].
  pose proof (parent_loop_final 3 (WindowFromDC api (world m) hdc)
                (class_buffer api (world m) []
                              (WindowFromDC api (world m) hdc)) m) as H.
  destruct (util.parent_loop api 3 _ _ m) as [[b m'] t]. exact H.
Qed.

(** The answer of [is_explorer_file_view], exactly: a window, and either
    one of the two list classes, or a shell view among its first three
    ancestors, or a shell view itself whose parent cannot be queried (the
    buffer then still reads the window's own class when the parent is
    compared). *)
Lemma is_explorer_file_view_exact (hdc : HDC) (m : Machine W) :
  let w := world m in
  let hwnd := WindowFromDC api w hdc in
  let cls := ClassName api w hwnd in
  result (util.is_explorer_file_view api hdc m) = true
  <-> hwnd <> NULL
      /\ ((cls = L "DirectUIHWND" \/ cls = L "SysListView32")
          \/ ancestor_within api w 3 hwnd (L "SHELLDLL_DefView")
          \/ (cls = L "SHELLDLL_DefView"
              /\ GetParent api w hwnd <> NULL
              /\ ClassName api w (GetParent api w hwnd) = [])).
Proof.
  intros w hwnd cls.
  assert (Hown : forall t, (0 < length t < 255)%nat ->
                   wstring_eqb (class_buffer api w [] hwnd) t = true
                   <-> cls = t).
  { intros t Ht. rewrite class_buffer_eqb by exact Ht. fold cls.
    split; [| tauto]. intros [H | [_ H]]; [exact H |].
    subst t. cbn in Ht. lia. }
  assert (Hlist : wstring_eqb (class_buffer api w [] hwnd) (L "DirectUIHWND")
                  || wstring_eqb (class_buffer api w [] hwnd)
                                 (L "SysListView32")
                  = true
                  <-> cls = L "DirectUIHWND" \/ cls = L "SysListView32").
  { rewrite orb_true_iff, !Hown by (cbn; lia). reflexivity. }
  rewrite is_explorer_file_view_run. cbv zeta. fold w. fold hwnd.
  destruct (Z.eqb_spec hwnd NULL) as [Hn | Hn].
  - cbn. split; [discriminate | tauto].
  - destruct (_ || _) eqn:Hl.
    + cbn. split; [| reflexivity]. intros _. split; [exact Hn |].
      left. now apply Hlist.
    + pose proof (parent_loop_result 3 hwnd (class_buffer api w [] hwnd)
                    m Hn) as Hloop.
      fold w in Hloop.
      destruct (util.parent_loop api 3 hwnd _ m) as [[b m'] t].
      unfold result in *. cbn [fst] in *. rewrite Hloop.
      assert (Hshell : class_buffer api w [] hwnd = L "SHELLDLL_DefView"
                       <-> cls = L "SHELLDLL_DefView").
      { rewrite <- wstring_eqb_eq. apply Hown. cbn. lia. }
      rewrite Hshell. split.
      * intros [Ha | (_ & Hb & Hp & Hf)]; (split; [exact Hn |]);
          [right; left; exact Ha | right; right; tauto].
      * intros (_ & [Hc | [Ha | (Hb & Hp & Hf)]]).
        -- apply Hlist in Hc. congruence.
        -- left. exact Ha.
        -- right. repeat split; try assumption. lia.
Qed.

End FileView.

Lemma orphan_has_no_shell_view_ancestor :
  let w := Orphan.desk in
  ~ ancestor_within Desk.api w 3 (WindowFromDC Desk.api w 1)
      (L "SHELLDLL_DefView").
Proof.
  intros w (k & Hk & Hnn & Hcls).
  assert (Hcases : k = 1%nat \/ k = 2%nat \/ k = 3%nat) by lia.
  destruct Hcases as [-> | [-> | ->]].
  - vm_compute in Hcls. discriminate.
  - apply Hnn. reflexivity.
  - apply Hnn. reflexivity.
Qed.

(** C4. The claim: [is_explorer_file_view] answers true for the two list
    classes, otherwise follows at most 3 parent links and answers true
    exactly when an ancestor within those links has class
    "SHELLDLL_DefView", and answers false without a window.  The code
    writes every class name into one buffer and never looks at the result
    of [GetClassNameW]; when the query on the parent fails, the buffer
    still reads the class of the window itself.  So the answer is true in
    one more case than the claim allows: a window that is a shell view
    itself and whose parent cannot be queried.  On the desktop where
    window 200, a shell view, names the destroyed window 999 as its
    parent, no ancestor within 3 links is a shell view, and the code
    answers true after one parent link. *)
Theorem is_explorer_file_view_stale_class_name :
  (forall (W : Type) (api : Win32 W) (m : Machine W) (hdc : HDC),
      let w := world m in
      let hwnd := WindowFromDC api w hdc in
      let cls := ClassName api w hwnd in
      result (util.is_explorer_file_view api hdc m) = true
      <-> hwnd <> NULL
          /\ ((cls = L "DirectUIHWND" \/ cls = L "SysListView32")
              \/ ancestor_within api w 3 hwnd (L "SHELLDLL_DefView")
              \/ (cls = L "SHELLDLL_DefView"
                  /\ GetParent api w hwnd <> NULL
                  /\ ClassName api w (GetParent api w hwnd) = [])))
  /\ (let m := mkMachine Sample.initial_globals Orphan.desk in
      let w := world m in
      let hwnd := WindowFromDC Desk.api w 1 in
      hwnd = 200
      /\ ClassName Desk.api w hwnd = L "SHELLDLL_DefView"
      /\ GetParent Desk.api w hwnd = 999
      /\ ClassName Desk.api w 999 = []
      /\ ~ ancestor_within Desk.api w 3 hwnd (L "SHELLDLL_DefView")
      /\ util.is_explorer_file_view Desk.api 1 m
         = (true, m,
            [EvWindowFromDC 1 200; EvGetClassNameW 200;
             EvGetParent 200 999; EvGetClassNameW 999])).
Proof.
  split.
  - intros W api m hdc. apply is_explorer_file_view_exact.
  - intros m w hwnd.
    split; [reflexivity |]. split; [reflexivity |].
    split; [reflexivity |]. split; [reflexivity |].
    split; [exact orphan_has_no_shell_view_ancestor | reflexivity].
Qed.

Example is_explorer_file_view_third_level :
  let m := mkMachine Sample.initial_globals (Sample.desk "None" 1 255 0 0) in
  util.is_explorer_file_view Desk.api 5 m
  = (true, m,
     [EvWindowFromDC 5 113; EvGetClassNameW 113;
      EvGetParent 113 112; EvGetClassNameW 112;
      EvGetParent 112 111; EvGetClassNameW 111;
      EvGetParent 111 110; EvGetClassNameW 110]).
Proof. reflexivity. Qed.

(** ** Counting calls in a trace *)

Lemma count_app (p : Event -> bool) (a b : list Event) :
  count p (a ++ b) = (count p a + count p b)%nat.
Proof. unfold count. now rewrite filter_app, length_app. Qed.

Lemma count_cons (p : Event -> bool) (e : Event) (l : list Event) :
  count p (e :: l) = ((if p e then 1 else 0) + count p l)%nat.
Proof. unfold count. cbn. destruct (p e); reflexivity. Qed.

Lemma count_nil (p : Event -> bool) : count p [] = 0%nat.
Proof. reflexivity. Qed.

Lemma count_none (p q : Event -> bool) (l : list Event) :
  (forall e, q e = true -> p e = false) ->
  forallb q l = true -> count p l = 0%nat.
Proof.
  intros Hpq. induction l as [| e l IH]; [reflexivity |].
  cbn [forallb]. rewrite andb_true_iff. intros [He Hl].
  rewrite count_cons, (Hpq e He), IH by assumption. reflexivity.
Qed.

Lemma In_forallb_kind (q : Event -> bool) (l : list Event) (e : Event) :
  forallb q l = true -> In e l -> q e = true.
Proof. intros H. rewrite forallb_forall in H. apply H. Qed.

Ltac kinds := let e := fresh "e" in intros e; destruct e; cbn; congruence.

(** ** The font step *)

Section FontStep.
Context {W : Type}.
Variable api : Win32 W.

Lemma change_font_in_struct_pure (font : LOGFONTW) (m : Machine W) :
  final (util.change_font_in_struct font m) = m
  /\ forallb is_Wh_Log (events (util.change_font_in_struct font m)) = true.
Proof.
  unfold util.change_font_in_struct, bind, get_globals.
  destruct (negb _); [| split; reflexivity].
  destruct (_ <=? _)%nat; split; reflexivity.
Qed.

Lemma hdc_update_font_run (hdc : HDC) (m : Machine W) :
  let w := world m in
  let h_font := GetCurrentObject api w hdc in
  let cf := util.change_font_in_struct (current_font api w hdc) m in
  let font := result cf in
  let h := fst (CreateFontIndirectW api font w) in
  let w1 := snd (CreateFontIndirectW api font w) in
  util.hdc_update_font api hdc m
  = ((util.mk_raii h, font),
     mkMachine (globals m) (SelectObject api hdc h w1),
     EvGetCurrentObject hdc h_font :: EvGetObjectW h_font
       :: events cf
       ++ [EvCreateFontIndirectW font h; EvSelectObject hdc h]).
Proof.
  intros w h_font cf font h w1.
  unfold util.hdc_update_font, bind, call_GetCurrentObject, call_GetObjectW,
    query. cbv zeta.
  fold w. fold h_font. change (match GetObjectW api w h_font with
                               | Some lf => lf
                               | None => LOGFONTW_zero
                               end) with (current_font api w hdc).
  pose proof (change_font_in_struct_pure (current_font api w hdc) m) as [Hm _].
  fold cf in Hm. subst w1 h font.
  fold cf. destruct cf as [[font m'] log]. unfold final in Hm. cbn in Hm.
  subst m'. unfold result, events. cbn [fst snd].
  unfold call_CreateFontIndirectW, call_SelectObject, command.
  cbn [world globals]. fold w.
  destruct (CreateFontIndirectW api font w) as [h w1]. cbn.
  reflexivity.
Qed.

End FontStep.

(** ** One intercepted call, step by step *)

Section HookRun.
Context {W : Type}.
Variable api : Win32 W.

Lemma is_light_background_run (hdc : HDC) (m : Machine W) :
  util.is_light_background api hdc m
  = (result (util.is_light_background api hdc m), m,
     [EvGetBkColor hdc (GetBkColor api (world m) hdc)]).
Proof. reflexivity. Qed.

Lemma is_explorer_file_view_events (hdc : HDC) (m : Machine W) :
  exists t,
    events (util.is_explorer_file_view api hdc m)
    = EvWindowFromDC hdc (WindowFromDC api (world m) hdc) :: t
    /\ forallb is_parent_walk t = true.
Proof.
  rewrite is_explorer_file_view_run. cbv zeta.
  destruct (_ =? NULL); [now exists [] |].
  destruct (_ || _); [now eexists; split; [reflexivity |] |].
  assert (H : forall n h buf,
             forallb is_parent_walk
               (events (util.parent_loop api n h buf m)) = true).
  { induction n as [| n IH]; intros h buf; [reflexivity |].
    rewrite parent_loop_step. cbv zeta.
    destruct (_ =? NULL); [reflexivity |].
    destruct (wstring_eqb _ _); [reflexivity |].
    specialize (IH (GetParent api (world m) h)
                   (class_buffer api (world m) buf
                                 (GetParent api (world m) h))).
    destruct (util.parent_loop api n _ _ m) as [[b m'] t]. exact IH. }
  specialize (H 3%nat (WindowFromDC api (world m) hdc)
                (class_buffer api (world m) []
                              (WindowFromDC api (world m) hdc))).
  destruct (util.parent_loop api 3 _ _ m) as [[b m'] t].
  eexists. split; [reflexivity |]. cbn. exact H.
Qed.

(** The colour step: nothing when the flag is off; one [GetBkColor] when
    the background is light; the window queries when it is not; and the
    [SetTextColor] call when the surface is a file view as well. *)
Lemma color_override_run (hdc : HDC) (m : Machine W) :
  let enabled := s_custom_color (globals m) in
  let light := result (util.is_light_background api hdc m) in
  let fv := util.is_explorer_file_view api hdc m in
  let color := configured_color (globals m) in
  let bk := EvGetBkColor hdc (GetBkColor api (world m) hdc) in
  color_override api hdc m
  = if enabled then
      if light then (tt, m, [bk])
      else if result fv
           then (tt,
                 mkMachine (globals m) (SetTextColor api hdc color (world m)),
                 bk :: events fv ++ [EvSetTextColor hdc color])
           else (tt, m, bk :: events fv)
    else (tt, m, []).
Proof.
  intros enabled light fv color bk.
  unfold color_override, util.is_custom_color_enabled, bind, get_globals, ret.
  cbv beta iota. fold enabled. destruct enabled; [| reflexivity].
  rewrite is_light_background_run. fold light.
  destruct light; [reflexivity |]. cbn [negb].
  pose proof (is_explorer_file_view_final api hdc m) as Hm. fold fv in Hm.
  fold fv. destruct fv as [[b m'] t]. unfold final in Hm. cbn in Hm. subst m'.
  unfold result, events. cbn [fst snd].
  subst bk color. destruct b.
  - unfold util.get_custom_text_color, bind, get_globals, ret,
      call_SetTextColor, command. cbv beta iota. cbn [app]. reflexivity.
  - cbn [app]. now rewrite app_nil_r.
Qed.

Lemma color_override_globals (hdc : HDC) (m : Machine W) :
  globals (final (color_override api hdc m)) = globals m.
Proof.
  rewrite color_override_run. cbv zeta.
  destruct (s_custom_color _); [| reflexivity].
  destruct (result (util.is_light_background _ _ _)); [reflexivity |].
  destruct (result (util.is_explorer_file_view _ _ _)); reflexivity.
Qed.

(** Either replacement function: the font step, the colour step, the
    original entry point with the caller's arguments, then the guard's
    destructor. *)
Lemma run_call_run (c : DrawCall) (m : Machine W) :
  let hdc := call_hdc c in
  let r0 := util.hdc_update_font api hdc m in
  let h := util.m_handle (fst (result r0)) in
  let rb := color_override api hdc (final r0) in
  let ro := original_fn api c (world (final rb)) in
  run_call api c m
  = (fst ro,
     mkMachine (globals (final rb)) (DeleteObject api h (snd ro)),
     events r0 ++ events rb ++ [original_event c (fst ro); EvDeleteObject h]).
Proof.
  intros hdc r0 h rb ro.
  assert (E : run_call api c m
              = bind (util.hdc_update_font api hdc)
                  (fun hf =>
                     color_override api hdc ;;
                     r <- command (original_fn api c) (original_event c) ;;
                     util.unique_hfont_dtor api (fst hf) ;;
                     ret r) m)
    by (destruct c; reflexivity).
  rewrite E. unfold bind. fold r0. subst h.
  destruct r0 as [[hf m1] t0]. unfold result, final, events in *.
  cbn [fst snd] in *. fold rb. subst ro.
  destruct rb as [[u m2] tb]. cbn [fst snd].
  unfold command. destruct (original_fn api c (world m2)) as [r w3].
  reflexivity.
Qed.

Lemma run_call_globals (c : DrawCall) (m : Machine W) :
  globals (final (run_call api c m)) = globals m.
Proof.
  rewrite run_call_run. cbv zeta. unfold final at 1. cbn [fst snd globals].
  rewrite color_override_globals, hdc_update_font_run. reflexivity.
Qed.

(** The state in which the original entry point is entered, its result
    handed back verbatim, and the world the call leaves behind. *)
Lemma run_call_delegation (c : DrawCall) (m : Machine W) :
  let hdc := call_hdc c in
  let r0 := util.hdc_update_font api hdc m in
  let m1 := final r0 in
  let h := util.m_handle (fst (result r0)) in
  let all := s_custom_color (globals m)
             && negb (result (util.is_light_background api hdc m1))
             && result (util.is_explorer_file_view api hdc m1) in
  let w_pre := if all
               then SetTextColor api hdc (configured_color (globals m))
                                 (world m1)
               else world m1 in
  result (run_call api c m) = fst (original_fn api c w_pre)
  /\ world (final (run_call api c m))
     = DeleteObject api h (snd (original_fn api c w_pre)).
Proof.
  intros hdc r0 m1 h all w_pre.
  rewrite run_call_run. cbv zeta. fold hdc. fold r0. fold m1. fold h.
  unfold result at 1, final at 1. cbn [fst snd world].
  assert (Hg : globals m1 = globals m)
    by (unfold m1, r0; now rewrite hdc_update_font_run).
  assert (Hw : world (final (color_override api hdc m1)) = w_pre).
  { rewrite color_override_run. cbv zeta. rewrite Hg. subst w_pre all.
    destruct (s_custom_color _); [| reflexivity].
    destruct (result (util.is_light_background _ _ _)); [reflexivity |].
    destruct (result (util.is_explorer_file_view _ _ _)); reflexivity. }
  rewrite <- Hw. split; reflexivity.
Qed.

(** The whole trace of an intercepted call, call by call. *)
Lemma run_call_events (c : DrawCall) (m : Machine W) :
  let hdc := call_hdc c in
  let r0 := util.hdc_update_font api hdc m in
  let m1 := final r0 in
  let font := snd (result r0) in
  let h := fst (CreateFontIndirectW api font (world m)) in
  let enabled := s_custom_color (globals m) in
  let light := result (util.is_light_background api hdc m1) in
  let fv := result (util.is_explorer_file_view api hdc m1) in
  let color := configured_color (globals m) in
  exists log t,
    forallb is_Wh_Log log = true
    /\ forallb is_parent_walk t = true
    /\ events r0
       = EvGetCurrentObject hdc (GetCurrentObject api (world m) hdc)
           :: EvGetObjectW (GetCurrentObject api (world m) hdc)
           :: log ++ [EvCreateFontIndirectW font h; EvSelectObject hdc h]
    /\ events (run_call api c m)
       = events r0
         ++ (if enabled then
               EvGetBkColor hdc (GetBkColor api (world m1) hdc)
                 :: (if light then []
                     else EvWindowFromDC hdc (WindowFromDC api (world m1) hdc)
                            :: t
                            ++ (if fv then [EvSetTextColor hdc color] else []))
             else [])
         ++ [original_event c (result (run_call api c m)); EvDeleteObject h].
Proof.
  intros hdc r0 m1 font h enabled light fv color.
  pose proof (hdc_update_font_run api hdc m) as E0. cbv zeta in E0.
  fold r0 in E0.
  pose proof (change_font_in_struct_pure
                (current_font api (world m) hdc) m) as [_ Hlog].
  set (log := events (util.change_font_in_struct
                        (current_font api (world m) hdc) m)) in *.
  destruct (is_explorer_file_view_events hdc m1) as (t & Ht & Hwalk).
  assert (Hh : util.m_handle (fst (result r0)) = h)
    by (unfold h, font; now rewrite E0).
  assert (He : events r0
               = EvGetCurrentObject hdc (GetCurrentObject api (world m) hdc)
                   :: EvGetObjectW (GetCurrentObject api (world m) hdc)
                   :: log ++ [EvCreateFontIndirectW font h;
                              EvSelectObject hdc h])
    by (unfold h, font; now rewrite E0).
  assert (Hg : globals m1 = globals m) by (unfold m1; now rewrite E0).
  pose proof (run_call_run c m) as E. cbv zeta in E.
  fold hdc in E. fold r0 in E. fold m1 in E. rewrite Hh in E.
  set (run := run_call api c m) in *.
  assert (Hres : result run
                 = fst (original_fn api c
                          (world (final (color_override api hdc m1)))))
    by now rewrite E.
  rewrite <- Hres in E.
  assert (Hev : events run
                = events r0 ++ events (color_override api hdc m1)
                  ++ [original_event c (result run); EvDeleteObject h]).
  { rewrite E at 1. reflexivity. }
  exists log, t. split; [exact Hlog |]. split; [exact Hwalk |].
  split; [exact He |]. rewrite Hev. do 2 f_equal.
  rewrite color_override_run. cbv zeta. rewrite Hg.
  fold enabled. fold light. fold fv. fold color.
  destruct enabled; [| reflexivity].
  destruct light; [reflexivity |].
  unfold events in Ht |- *.
  destruct fv; cbn [snd]; rewrite Ht; [reflexivity |].
  now rewrite app_nil_r.
Qed.

End HookRun.

(** ** The replacement entry points *)

Remark run_call_draw_textw {W} (api : Win32 W) hdc t n rc f :
  run_call api (CallDrawTextW hdc t n rc f) = draw_textw_hook api hdc t n rc f.
Proof. reflexivity. Qed.

Remark run_call_draw_text_exw {W} (api : Win32 W) hdc t n rc f p :
  run_call api (CallDrawTextExW hdc t n rc f p)
  = draw_text_exw_hook api hdc t n rc f p.
Proof. reflexivity. Qed.

Lemma original_event_kinds (c : DrawCall) (r : INT) :
  is_original (original_event c r) = true
  /\ is_DeleteObject (original_event c r) = false
  /\ is_CreateFontIndirectW (original_event c r) = false
  /\ is_SetTextColor (original_event c r) = false
  /\ is_GetBkColor (original_event c r) = false
  /\ is_WindowFromDC (original_event c r) = false.
Proof. destruct c; repeat split. Qed.

Lemma filter_none (p q : Event -> bool) (l : list Event) :
  (forall e, q e = true -> p e = false) ->
  forallb q l = true -> filter p l = [].
Proof.
  intros Hpq. induction l as [| e l IH]; [reflexivity |].
  cbn [forallb]. rewrite andb_true_iff. intros [He Hl].
  cbn [filter]. rewrite (Hpq e He). now apply IH.
Qed.

Ltac count_trace :=
  repeat (rewrite count_app || rewrite count_cons || rewrite count_nil);
  repeat match goal with
         | H : forallb is_Wh_Log ?l = true |- context [count ?p ?l] =>
             rewrite (count_none p is_Wh_Log l) by (kinds || exact H)
         | H : forallb is_parent_walk ?l = true |- context [count ?p ?l] =>
             rewrite (count_none p is_parent_walk l) by (kinds || exact H)
         end.

(** C2. Every call into [draw_textw_hook] or [draw_text_exw_hook] makes
    exactly one [CreateFontIndirectW] call and exactly one [DeleteObject]
    call; the handle deleted is the one the creation returned; the deletion
    is the last thing the call does, right after the original entry point
    has returned.  This holds in every world, hence whichever way the
    colour conditions fall and whatever the original returns. *)
Theorem font_created_once_released_once :
  forall (W : Type) (api : Win32 W) (c : DrawCall) (m : Machine W),
    let run := run_call api c m in
    let tr := events run in
    let font := snd (result (util.hdc_update_font api (call_hdc c) m)) in
    let h := fst (CreateFontIndirectW api font (world m)) in
    count is_CreateFontIndirectW tr = 1%nat
    /\ count is_DeleteObject tr = 1%nat
    /\ (exists pre,
          tr = pre ++ [original_event c (result run); EvDeleteObject h]
          /\ In (EvCreateFontIndirectW font h) pre
          /\ count is_DeleteObject pre = 0%nat
          /\ count is_original pre = 0%nat).
Proof.
  intros W api c m run tr font h.
  destruct (run_call_events api c m) as (log & t & Hlog & Ht & E0 & E).
  cbv zeta in E0, E. fold font in E0, E. fold h in E0, E. fold run in E.
  fold tr in E. rewrite E0 in E. clear E0.
  destruct (original_event_kinds c (result run))
    as (Ho & Hod & Hoc & _).
  set (branch := if s_custom_color (globals m) then _ else _) in E.
  assert (Hb : count is_CreateFontIndirectW branch = 0%nat
               /\ count is_DeleteObject branch = 0%nat
               /\ count is_original branch = 0%nat).
  { subst branch. destruct (s_custom_color _); [| repeat split].
    destruct (result (util.is_light_background _ _ _)); [repeat split |].
    destruct (result (util.is_explorer_file_view _ _ _));
      repeat split; count_trace; reflexivity. }
  destruct Hb as (Hbc & Hbd & Hbo).
  split; [| split].
  - rewrite E. count_trace. rewrite Hbc, Hoc. reflexivity.
  - rewrite E. count_trace. rewrite Hbd, Hod. reflexivity.
  - eexists. split; [rewrite E; rewrite app_assoc; reflexivity |].
    split; [| split].
    + apply in_or_app. left. right. right. apply in_or_app. right. now left.
    + count_trace. rewrite Hbd. reflexivity.
    + count_trace. rewrite Hbo. reflexivity.
Qed.

(** C3. In each intercepted call the three conditions are tried in the
    order flag, background, surface, stopping at the first that fails: the
    background colour is queried only when the flag is on, the window only
    when moreover the background is not light.  [SetTextColor] is called,
    once and with the configured colour, exactly when all three hold; it
    precedes the original entry point, which is therefore entered in the
    world where the text colour has been set when all three hold and in the
    untouched world otherwise. *)
Theorem color_override_iff_all_three :
  forall (W : Type) (api : Win32 W) (c : DrawCall) (m : Machine W),
    let hdc := call_hdc c in
    let r0 := util.hdc_update_font api hdc m in
    let m1 := final r0 in
    let enabled := result (util.is_custom_color_enabled m) in
    let light := result (util.is_light_background api hdc m1) in
    let file_view := result (util.is_explorer_file_view api hdc m1) in
    let color := result (util.get_custom_text_color m) in
    let all := enabled && negb light && file_view in
    let run := run_call api c m in
    let tr := events run in
    let w_pre := if all then SetTextColor api hdc color (world m1)
                 else world m1 in
    count is_SetTextColor tr = (if all then 1 else 0)%nat
    /\ (forall e, In e tr -> is_SetTextColor e = true ->
                  e = EvSetTextColor hdc color)
    /\ count is_GetBkColor tr = (if enabled then 1 else 0)%nat
    /\ count is_WindowFromDC tr
       = (if enabled && negb light then 1 else 0)%nat
    /\ (exists walk last,
          tr = events r0
               ++ (if enabled then
                     EvGetBkColor hdc (GetBkColor api (world m1) hdc)
                       :: (if light then []
                           else EvWindowFromDC hdc
                                  (WindowFromDC api (world m1) hdc)
                                  :: walk
                                  ++ (if file_view
                                      then [EvSetTextColor hdc color]
                                      else []))
                   else [])
               ++ [original_event c (result run); last]
          /\ forallb is_parent_walk walk = true
          /\ count is_SetTextColor (events r0) = 0%nat
          /\ count is_GetBkColor (events r0) = 0%nat
          /\ count is_WindowFromDC (events r0) = 0%nat)
    /\ result run = fst (original_fn api c w_pre)
    /\ globals (final run) = globals m.
Proof.
  intros W api c m hdc r0 m1 enabled light file_view color all run tr w_pre.
  destruct (run_call_events api c m) as (log & t & Hlog & Ht & E0 & E).
  destruct (run_call_delegation api c m) as [Hres _].
  cbv zeta in E0, E, Hres.
  fold hdc in E0, E, Hres. fold r0 in E0, E, Hres. fold m1 in E, Hres.
  fold run in E, Hres. fold tr in E.
  change (s_custom_color (globals m)) with enabled in E, Hres.
  change (configured_color (globals m)) with color in E, Hres.
  fold light in E, Hres. fold file_view in E, Hres.
  destruct (original_event_kinds c (result run))
    as (_ & _ & _ & Hos & Hob & How).
  assert (H0 : count is_SetTextColor (events r0) = 0%nat
               /\ count is_GetBkColor (events r0) = 0%nat
               /\ count is_WindowFromDC (events r0) = 0%nat).
  { rewrite E0. repeat split; count_trace; reflexivity. }
  destruct H0 as (H0s & H0b & H0w).
  split; [| split; [| split; [| split; [| split; [| split]]]]].
  - rewrite E. subst all. count_trace. rewrite H0s, Hos.
    destruct enabled, light, file_view; cbn [andb negb];
      count_trace; reflexivity.
  - intros e He Hk.
    assert (Hf : filter is_SetTextColor tr
                 = if all then [EvSetTextColor hdc color] else []).
    { rewrite E, E0. subst all. cbn [app filter is_SetTextColor].
      rewrite !filter_app. cbn [filter is_SetTextColor].
      rewrite (filter_none is_SetTextColor is_Wh_Log log)
        by (kinds || exact Hlog).
      rewrite Hos.
      destruct enabled; [| reflexivity].
      destruct light; [reflexivity |].
      cbn [filter is_SetTextColor andb negb app]. rewrite filter_app.
      rewrite (filter_none is_SetTextColor is_parent_walk t)
        by (kinds || exact Ht).
      destruct file_view; reflexivity. }
    assert (Hin : In e (filter is_SetTextColor tr))
      by (apply filter_In; split; assumption).
    rewrite Hf in Hin. destruct all; [| contradiction].
    destruct Hin as [Hin | []]. now symmetry.
  - rewrite E. count_trace. rewrite H0b, Hob.
    destruct enabled, light, file_view; count_trace; reflexivity.
  - rewrite E. count_trace. rewrite H0w, How.
    destruct enabled, light, file_view; cbn [andb negb];
      count_trace; reflexivity.
  - exists t. eexists. split; [exact E |]. repeat split; assumption.
  - exact Hres.
  - apply run_call_globals.
Qed.

(** ** Settings *)

Section Settings.
Context {W : Type}.
Variable api : Win32 W.

Lemma update_settings_run (m : Machine W) :
  let w := world m in
  final (util.update_settings api m)
  = mkMachine
      (mkGlobals (Wh_GetStringSetting api w (L "font.name"))
                 (Wh_GetIntSetting api w (L "font.customColor") =? 1)
                 (Wh_GetIntSetting api w (L "font.textR"))
                 (Wh_GetIntSetting api w (L "font.textG"))
                 (Wh_GetIntSetting api w (L "font.textB")))
      w.
Proof. reflexivity. Qed.

Lemma run_calls_globals (cs : list DrawCall) (m : Machine W) :
  globals (final (run_calls api cs m)) = globals m.
Proof.
  revert m. induction cs as [| c cs IH]; intros m; [reflexivity |].
  cbn [run_calls]. unfold bind.
  pose proof (run_call_globals api c m) as Hc.
  destruct (run_call api c m) as [[r m1] t1]. unfold final in Hc.
  cbn [fst snd] in Hc. specialize (IH m1).
  destruct (run_calls api cs m1) as [[u m2] t2]. unfold final in *.
  cbn [fst snd] in *. congruence.
Qed.

(** With the flag off an intercepted call neither sets the text colour nor
    looks at the background. *)
Lemma run_call_disabled (c : DrawCall) (m : Machine W) :
  s_custom_color (globals m) = false ->
  count is_SetTextColor (events (run_call api c m)) = 0%nat
  /\ count is_GetBkColor (events (run_call api c m)) = 0%nat.
Proof.
  intros Hoff.
  destruct (run_call_events api c m) as (log & t & Hlog & _ & E0 & E).
  cbv zeta in E0, E. rewrite Hoff, E0 in E. rewrite E.
  destruct (original_event_kinds c (result (run_call api c m)))
    as (_ & _ & _ & Hos & Hob & _).
  split; count_trace; rewrite ?Hos, ?Hob; reflexivity.
Qed.

Lemma run_calls_disabled (cs : list DrawCall) (m : Machine W) :
  s_custom_color (globals m) = false ->
  count is_SetTextColor (events (run_calls api cs m)) = 0%nat
  /\ count is_GetBkColor (events (run_calls api cs m)) = 0%nat.
Proof.
  revert m. induction cs as [| c cs IH]; intros m Hoff; [split; reflexivity |].
  cbn [run_calls]. unfold bind.
  destruct (run_call_disabled c m Hoff) as [Hs Hb].
  pose proof (run_call_globals api c m) as Hg.
  destruct (run_call api c m) as [[r m1] t1]. unfold final, events in *.
  cbn [fst snd] in *.
  assert (Hoff1 : s_custom_color (globals m1) = false) by congruence.
  destruct (IH m1 Hoff1) as [Hs' Hb'].
  destruct (run_calls api cs m1) as [[u m2] t2]. cbn [fst snd] in *.
  rewrite !count_app. lia.
Qed.

End Settings.

(** C10. After [update_settings] the flag the hooks consult is true exactly
    when the integer stored under "font.customColor" is 1.  For any other
    stored integer, 2 and -1 included, the flag is false, and in every
    sequence of intercepted calls that follows no [SetTextColor] call is
    made (the background is not even queried). *)
Theorem custom_color_flag_is_one :
  forall (W : Type) (api : Win32 W) (m : Machine W),
    let v := Wh_GetIntSetting api (world m) (L "font.customColor") in
    let m' := final (util.update_settings api m) in
    result (util.is_custom_color_enabled m') = (v =? 1)
    /\ (result (util.is_custom_color_enabled m') = true <-> v = 1)
    /\ (v <> 1 ->
        result (util.is_custom_color_enabled m') = false
        /\ forall cs : list DrawCall,
            count is_SetTextColor (events (run_calls api cs m')) = 0%nat
            /\ count is_GetBkColor (events (run_calls api cs m')) = 0%nat
            /\ result (util.is_custom_color_enabled
                         (final (run_calls api cs m'))) = false).
Proof.
  intros W api m v m'.
  assert (Hflag : result (util.is_custom_color_enabled m') = (v =? 1))
    by reflexivity.
  split; [exact Hflag |]. split; [rewrite Hflag; apply Z.eqb_eq |].
  intros Hv. apply Z.eqb_neq in Hv.
  assert (Hoff : s_custom_color (globals m') = false) by exact Hv.
  split; [rewrite Hflag; exact Hv |].
  intros cs. destruct (run_calls_disabled api cs m' Hoff) as [Hs Hb].
  split; [exact Hs |]. split; [exact Hb |].
  change (s_custom_color (globals (final (run_calls api cs m'))) = false).
  now rewrite run_calls_globals.
Qed.

Lemma custom_color_flag_is_one_witness :
  let calls := [CallDrawTextW 1 0 5 0 0; CallDrawTextExW 1 0 5 0 0 0] in
  let on := mkMachine Sample.initial_globals (Sample.desk "None" 1 255 0 0) in
  let two := mkMachine Sample.initial_globals (Sample.desk "None" 2 255 0 0) in
  let neg := mkMachine Sample.initial_globals
                       (Sample.desk "None" (-1) 255 0 0) in
  let after m := final (util.update_settings Desk.api m) in
  result (util.is_custom_color_enabled (after on)) = true
  /\ count is_SetTextColor (events (run_calls Desk.api calls (after on)))
     = 2%nat
  /\ result (util.is_custom_color_enabled (after two)) = false
  /\ count is_SetTextColor (events (run_calls Desk.api calls (after two)))
     = 0%nat
  /\ result (util.is_custom_color_enabled (after neg)) = false
  /\ count is_SetTextColor (events (run_calls Desk.api calls (after neg)))
     = 0%nat.
Proof.
  intros calls on two neg after.
  destruct (custom_color_flag_is_one Desk.t Desk.api on) as (_ & Hon & _).
  destruct (custom_color_flag_is_one Desk.t Desk.api two) as (_ & _ & Htwo).
  destruct (custom_color_flag_is_one Desk.t Desk.api neg) as (_ & _ & Hneg).
  destruct Htwo as [Htwo_flag Htwo_calls]; [vm_compute; discriminate |].
  destruct Hneg as [Hneg_flag Hneg_calls]; [vm_compute; discriminate |].
  split; [apply Hon; reflexivity |].
  split; [reflexivity |].
  split; [exact Htwo_flag |].
  split; [exact (proj1 (Htwo_calls calls)) |].
  split; [exact Hneg_flag |].
  exact (proj1 (Hneg_calls calls)).
Defined.

(** ** The resource guard *)

(** C8. The claim: a guard cannot be copied, so its handle can never be
    released twice, and a live guard can be asked for its handle.  The
    class deletes its default constructor only; it declares no copy
    constructor, so the implicit member-wise one exists.  A guard can
    therefore be copied, the copy holds the same handle, and destroying
    copy and original calls [DeleteObject] on that handle twice.  [get]
    does return the handle of a live guard. *)
Theorem raii_copy_releases_twice :
  forall (W : Type) (api : Win32 W) (m : Machine W) (h : HFONT),
    let a : util.unique_hfont_t := util.raii_ctor h in
    let b : util.unique_hfont_t := util.raii_copy_ctor a in
    let run := (util.unique_hfont_dtor api b ;;
                util.unique_hfont_dtor api a) m in
    util.raii_get a = h
    /\ util.raii_get b = h
    /\ events run = [EvDeleteObject h; EvDeleteObject h]
    /\ count is_DeleteObject (events run) = 2%nat
    /\ world (final run) = DeleteObject api h (DeleteObject api h (world m)).
Proof. intros W api m h a b run. repeat split. Qed.

(** ** Initialisation *)

(** C9. The claim: when the address of a target function cannot be
    resolved, [Wh_ModInit] fails.  The code never tests the address: for
    every world it registers both hooks on whatever [GetProcAddress]
    returned and answers [TRUE]; on a desktop whose [user32.dll] exports
    neither function both hooks are registered on address 0. *)
Theorem Wh_ModInit_always_true :
  forall (W : Type) (api : Win32 W) (m : Machine W),
    let w := world m in
    let user32 := LoadLibraryW api w (L "user32.dll") in
    let draw_textw := GetProcAddress api w user32 "DrawTextW" in
    let run := Wh_ModInit api m in
    result run = TRUE
    /\ In (EvWh_SetFunctionHook draw_textw draw_textw_hook_fn) (events run)
    /\ (let bare := mkMachine Sample.initial_globals
                              Sample.desk_without_exports in
        GetProcAddress Desk.api (world bare)
          (LoadLibraryW Desk.api (world bare) (L "user32.dll")) "DrawTextW"
        = 0
        /\ result (Wh_ModInit Desk.api bare) = TRUE
        /\ Desk.hooked (world (final (Wh_ModInit Desk.api bare)))
           = [(0, draw_textw_hook_fn); (0, draw_text_exw_hook_fn)]).
Proof.
  intros W api m w user32 draw_textw run.
  split; [reflexivity |]. split.
  - unfold run, Wh_ModInit, events, bind, util.update_settings,
      call_Wh_GetStringSetting, call_Wh_GetIntSetting, call_LoadLibraryW,
      call_GetProcAddress, call_Wh_SetFunctionHook, put_globals, query,
      command, ret.
    cbn. do 7 right. left. reflexivity.
  - repeat split.
Qed.

(** ** The sample desktop, end to end *)

(** Colour override on, red, no font override.  A call on the dark item
    view sets the text colour; the original entry point sees red and the
    freshly created font, whose face name is the one the context had. *)
Example dark_file_view_call :
  let m := final (Wh_ModInit Desk.api
                    (mkMachine Sample.initial_globals
                               (Sample.desk "None" 1 255 0 0))) in
  let run := draw_textw_hook Desk.api 1 0 5 0 0 m in
  map (fun e => if is_CreateFontIndirectW e then None else Some e) (events run)
  = [Some (EvGetCurrentObject 1 500); Some (EvGetObjectW 500); None;
     Some (EvSelectObject 1 501); Some (EvGetBkColor 1 Sample.dark);
     Some (EvWindowFromDC 1 106); Some (EvGetClassNameW 106);
     Some (EvSetTextColor 1 (RGB 255 0 0));
     Some (EvDrawTextW_original 1 0 5 0 0 5); Some (EvDeleteObject 501)]
  /\ snd (result (util.hdc_update_font Desk.api 1 m)) = Sample.segoe
  /\ Desk.drawn (world (final run)) = [(1, RGB 255 0 0, 501)].
Proof. repeat split. Qed.

(** The same call on the light popup menu leaves the text colour alone and
    never asks for the window. *)
Example light_menu_call :
  let m := final (Wh_ModInit Desk.api
                    (mkMachine Sample.initial_globals
                               (Sample.desk "None" 1 255 0 0))) in
  let run := draw_text_exw_hook Desk.api 2 0 5 0 0 0 m in
  map (fun e => if is_CreateFontIndirectW e then None else Some e) (events run)
  = [Some (EvGetCurrentObject 2 500); Some (EvGetObjectW 500); None;
     Some (EvSelectObject 2 501); Some (EvGetBkColor 2 Sample.white);
     Some (EvDrawTextExW_original 2 0 5 0 0 0 5); Some (EvDeleteObject 501)]
  /\ Desk.drawn (world (final run)) = [(2, Sample.black, 501)].
Proof. repeat split. Qed.

(** A dark surface that is no file view (the edit control four levels
    below the shell view): three parent links are followed, then the call
    is delegated with the colour untouched. *)
Example dark_edit_call :
  let m := final (Wh_ModInit Desk.api
                    (mkMachine Sample.initial_globals
                               (Sample.desk "None" 1 255 0 0))) in
  let run := draw_textw_hook Desk.api 4 0 5 0 0 m in
  count is_GetParent (events run) = 3%nat
  /\ count is_SetTextColor (events run) = 0%nat
  /\ Desk.drawn (world (final run)) = [(4, Sample.black, 501)].
Proof. repeat split. Qed.

(** * Further properties *)

(** ** The face-name overwrite in detail *)

Lemma skipn_repeat {A} (x : A) (n m : nat) :
  skipn n (repeat x m) = repeat x (m - n).
Proof.
  revert m. induction n as [| n IH]; intros [| m]; cbn; try reflexivity.
  apply IH.
Qed.

(** What is left behind the override name: zeros up to unit 16 when the
    name is shorter than that, then the old units. *)
Lemma face_tail (face : list WCHAR) (n : nat) :
  skipn n (repeat 0 16 ++ skipn 16 face)
  = repeat 0 (16 - n) ++ skipn (Nat.max 16 n) face.
Proof.
  rewrite skipn_app, skipn_repeat, repeat_length, skipn_skipn.
  do 2 f_equal. lia.
Qed.

Lemma is_wstring_is_wchar (s : wstring) : is_wstring s -> Forall is_wchar s.
Proof.
  unfold is_wstring. apply Forall_impl. unfold is_wchar. intros c Hc. lia.
Qed.

Lemma wcs_app (a b : list WCHAR) : is_wstring a -> wcs (a ++ b) = a ++ wcs b.
Proof.
  induction 1 as [| c a Hc Ha IH]; [reflexivity |]. cbn.
  destruct (Z.eqb_spec c 0) as [-> | _]; [lia |]. now rewrite IH.
Qed.

Lemma wcs_zero_led (n : nat) (l : list WCHAR) :
  (0 < n)%nat -> wcs (repeat 0 n ++ l) = [].
Proof. destruct n; [lia | reflexivity]. Qed.

Lemma set_lfFaceName_same (font : LOGFONTW) :
  set_lfFaceName font (lfFaceName font) = font.
Proof. destruct font. reflexivity. Qed.

Lemma set_lfFaceName_twice (font : LOGFONTW) (a b : list WCHAR) :
  set_lfFaceName (set_lfFaceName font a) b = set_lfFaceName font b.
Proof. reflexivity. Qed.

(** X1. [change_font_in_struct] touches nothing but the face name: every
    other field of the description, the settings and the world are as
    before, whatever the override name.  On a valid description, with an
    override made of 16-bit units, the face name it leaves is again an
    array of exactly 32 16-bit units: nothing is written past the field. *)
Theorem change_font_in_struct_stays_in_field :
  forall (W : Type) (m : Machine W) (font : LOGFONTW),
    let r := util.change_font_in_struct font m in
    set_lfFaceName (result r) (lfFaceName font) = font
    /\ final r = m
    /\ (valid_LOGFONTW font ->
        Forall is_wchar (s_font_name (globals m)) ->
        valid_LOGFONTW (result r)).
Proof.
  intros W m font r.
  destruct (change_font_in_struct_pure font m) as [Hfinal _]. fold r in Hfinal.
  split; [| split; [exact Hfinal |]].
  - unfold r, util.change_font_in_struct, bind, get_globals, result.
    destruct (negb _); [| apply set_lfFaceName_same].
    destruct (_ <=? _)%nat; cbn [fst ret];
      [apply set_lfFaceName_same || (rewrite set_lfFaceName_twice;
                                     apply set_lfFaceName_same)
      | apply set_lfFaceName_same].
  - intros Hvalid Hname.
    destruct (wstring_eqb (s_font_name (globals m)) (L "None")) eqn:Hnone.
    { apply wstring_eqb_eq in Hnone. unfold r.
      now rewrite change_font_in_struct_none. }
    apply wstring_eqb_neq in Hnone.
    destruct (Nat.leb_spec (length (s_font_name (globals m))) 31)
      as [Hle | Hgt].
    + unfold r. rewrite change_font_in_struct_fits by assumption.
      destruct Hvalid as [Hsz Hface]. unfold result, valid_LOGFONTW.
      cbn [fst lfFaceName set_lfFaceName]. rewrite face_tail. split.
      * rewrite !length_app, !repeat_length, length_skipn, Hsz.
        unfold LF_FACESIZE. lia.
      * apply Forall_app. split; [assumption |].
        apply Forall_app. split;
          [apply Forall_repeat, is_wchar_zero | now apply Forall_skipn].
    + unfold r, util.change_font_in_struct, bind, get_globals, result.
      apply wstring_eqb_neq in Hnone. rewrite Hnone.
      apply Nat.leb_gt in Hgt. rewrite Hgt. exact Hvalid.
Qed.

Lemma change_font_in_struct_stays_in_field_witness :
  let m := mkMachine (Sample.settings "Arial" true 255 255 255) tt in
  valid_LOGFONTW Sample.segoe
  /\ Forall is_wchar (s_font_name (globals m))
  /\ valid_LOGFONTW (result (util.change_font_in_struct Sample.segoe m)).
Proof.
  intros m.
  assert (Hname : Forall is_wchar (s_font_name (globals m)))
    by (apply Forall_is_wchar_dec; reflexivity).
  destruct (change_font_in_struct_stays_in_field unit m Sample.segoe)
    as (_ & _ & Hvalid).
  split; [exact valid_segoe |]. split; [exact Hname |].
  exact (Hvalid valid_segoe Hname).
Defined.

(** X2. Unit by unit.  With an override name of at most 31 units other
    than "None", unit [i] of the face name becomes: the override's unit
    when [i] lies inside the name; zero when [i] lies behind the name but
    before unit 16; and the old unit otherwise.  So the part of the field
    that is cleared is its first half, not the whole. *)
Theorem change_font_in_struct_units :
  forall (W : Type) (m : Machine W) (font : LOGFONTW) (i : nat),
    let name := s_font_name (globals m) in
    valid_LOGFONTW font -> Forall is_wchar name ->
    name <> L "None" -> (length name <= 31)%nat -> (i < 32)%nat ->
    nth i (lfFaceName (result (util.change_font_in_struct font m))) 0
    = if (i <? length name)%nat then nth i name 0
      else if (i <? 16)%nat then 0
           else nth i (lfFaceName font) 0.
Proof.
  intros W m font i name Hvalid Hname Hne Hlen Hi.
  pose proof (change_font_in_struct_fits m font Hne Hlen Hvalid Hname) as E.
  fold name in E. rewrite E. unfold result.
  cbn [fst lfFaceName set_lfFaceName].
  destruct (Nat.ltb_spec i (length name)) as [Hin | Hout].
  - now rewrite app_nth1.
  - rewrite app_nth2 by lia. rewrite nth_skipn.
    replace (length name + (i - length name))%nat with i by lia.
    destruct (Nat.ltb_spec i 16) as [Hlow | Hhigh].
    + rewrite app_nth1 by (rewrite repeat_length; lia). apply nth_repeat.
    + rewrite app_nth2 by (rewrite repeat_length; lia).
      rewrite repeat_length, nth_skipn. f_equal. lia.
Qed.

Lemma change_font_in_struct_units_witness :
  let m := mkMachine (Sample.settings "Arial" true 255 255 255) tt in
  let face := lfFaceName (result (util.change_font_in_struct Sample.segoe m)) in
  nth 2 face 0 = 105 /\ nth 9 face 0 = 0 /\ nth 20 face 0 = 115.
Proof.
  intros m face.
  assert (Hname : Forall is_wchar (s_font_name (globals m)))
    by (apply Forall_is_wchar_dec; reflexivity).
  assert (Hne : s_font_name (globals m) <> L "None")
    by (vm_compute; discriminate).
  assert (Hlen : (length (s_font_name (globals m)) <= 31)%nat)
    by (vm_compute; lia).
  split; [| split].
  - exact (change_font_in_struct_units unit m Sample.segoe 2
             valid_segoe Hname Hne Hlen ltac:(lia)).
  - exact (change_font_in_struct_units unit m Sample.segoe 9
             valid_segoe Hname Hne Hlen ltac:(lia)).
  - exact (change_font_in_struct_units unit m Sample.segoe 20
             valid_segoe Hname Hne Hlen ltac:(lia)).
Defined.

Lemma valid_tahoma : valid_LOGFONTW Sample2.tahoma.
Proof.
  split; [reflexivity |]. apply Forall_is_wchar_dec. reflexivity.
Qed.

(** X3. When the result is clean.  With an override name of at most 31
    units other than "None", the face name ends up as the override
    followed by zeros only if and only if the old array already held zeros
    from unit 16 on (from the end of the name on, when the name is longer
    than 16 units). *)
Theorem change_font_in_struct_padded_iff :
  forall (W : Type) (m : Machine W) (font : LOGFONTW),
    let name := s_font_name (globals m) in
    let from := Nat.max 16 (length name) in
    valid_LOGFONTW font -> Forall is_wchar name ->
    name <> L "None" -> (length name <= 31)%nat ->
    lfFaceName (result (util.change_font_in_struct font m))
    = name ++ repeat 0 (LF_FACESIZE - length name)
    <-> skipn from (lfFaceName font) = repeat 0 (LF_FACESIZE - from).
Proof.
  intros W m font name from Hvalid Hname Hne Hlen.
  pose proof (change_font_in_struct_fits m font Hne Hlen Hvalid Hname) as E.
  fold name in E. rewrite E. unfold result.
  cbn [fst lfFaceName set_lfFaceName].
  rewrite app_inv_head_iff, face_tail. fold from.
  replace (LF_FACESIZE - length name)%nat
    with ((16 - length name) + (LF_FACESIZE - from))%nat
    by (unfold from, LF_FACESIZE; lia).
  rewrite repeat_app. apply app_inv_head_iff.
Qed.

Lemma change_font_in_struct_padded_iff_witness :
  let m := mkMachine (Sample.settings "Arial" true 255 255 255) tt in
  lfFaceName (result (util.change_font_in_struct Sample2.tahoma m))
  = Sample.face "Arial"
  /\ skipn 16 (lfFaceName Sample.segoe) <> repeat 0 16.
Proof.
  intros m.
  assert (Hname : Forall is_wchar (s_font_name (globals m)))
    by (apply Forall_is_wchar_dec; reflexivity).
  assert (Hne : s_font_name (globals m) <> L "None")
    by (vm_compute; discriminate).
  assert (Hlen : (length (s_font_name (globals m)) <= 31)%nat)
    by (vm_compute; lia).
  split.
  - apply (change_font_in_struct_padded_iff unit m Sample2.tahoma
             valid_tahoma Hname Hne Hlen). reflexivity.
  - intros Hzero.
    apply (change_font_in_struct_padded_iff unit m Sample.segoe
             valid_segoe Hname Hne Hlen) in Hzero.
    vm_compute in Hzero. discriminate.
Defined.

(** X4. The face name that [CreateFontIndirectW] will read, the units up
    to the first zero.  An override of fewer than 16 units (the empty one
    included) is read back exactly.  An override of 16 to 31 units is read
    back followed by whatever the old array held behind it, up to the old
    array's first zero from there: no terminator is written after the
    name. *)
Theorem change_font_in_struct_c_string :
  forall (W : Type) (m : Machine W) (font : LOGFONTW),
    let name := s_font_name (globals m) in
    valid_LOGFONTW font -> is_wstring name ->
    name <> L "None" -> (length name <= 31)%nat ->
    wcs (lfFaceName (result (util.change_font_in_struct font m)))
    = if (length name <? 16)%nat then name
      else name ++ wcs (skipn (length name) (lfFaceName font)).
Proof.
  intros W m font name Hvalid Hname Hne Hlen.
  pose proof (change_font_in_struct_fits m font Hne Hlen Hvalid
                (is_wstring_is_wchar _ Hname)) as E.
  fold name in E. rewrite E. unfold result.
  cbn [fst lfFaceName set_lfFaceName].
  rewrite wcs_app by assumption. rewrite face_tail.
  destruct (Nat.ltb_spec (length name) 16) as [Hshort | Hlong].
  - rewrite wcs_zero_led by lia. apply app_nil_r.
  - replace (16 - length name)%nat with 0%nat by lia.
    replace (Nat.max 16 (length name)) with (length name) by lia.
    reflexivity.
Qed.

Lemma change_font_in_struct_c_string_witness :
  let short := mkMachine (Sample.settings "Arial" true 255 255 255) tt in
  let long := mkMachine (Sample.settings "Segoe UI Semibold" true 0 0 0) tt in
  wcs (lfFaceName (result (util.change_font_in_struct Sample.segoe short)))
  = L "Arial"
  /\ wcs (lfFaceName (result (util.change_font_in_struct Sample.segoe long)))
     = L "Segoe UI Semibold Display".
Proof.
  intros short long.
  assert (Hs : is_wstring (s_font_name (globals short)))
    by (repeat constructor).
  assert (Hl : is_wstring (s_font_name (globals long)))
    by (repeat constructor).
  split.
  - apply (change_font_in_struct_c_string unit short Sample.segoe
             valid_segoe Hs);
      [vm_compute; discriminate | vm_compute; lia].
  - apply (change_font_in_struct_c_string unit long Sample.segoe
             valid_segoe Hl);
      [vm_compute; discriminate | vm_compute; lia].
Defined.

(** ** The trace of an intercepted call, piece by piece *)

Section Trace.
Context {W : Type}.
Variable api : Win32 W.

Lemma change_font_in_struct_events (font : LOGFONTW) (m : Machine W) :
  let name := s_font_name (globals m) in
  events (util.change_font_in_struct font m)
  = if (31 <? length name)%nat
    then [EvWh_Log (LogFontTooLong name (length name))]
    else [].
Proof.
  intros name. unfold util.change_font_in_struct, bind, get_globals, events.
  fold name. cbv beta iota.
  destruct (Nat.ltb_spec 31 (length name)) as [Hgt | Hle].
  - assert (Hne : wstring_eqb name (L "None") = false).
    { apply wstring_eqb_neq. intros Heq. rewrite Heq in Hgt. cbn in Hgt. lia. }
    rewrite Hne. cbn [negb].
    assert (Hleb : (length name <=? 31)%nat = false) by (apply Nat.leb_gt; lia).
    rewrite Hleb. reflexivity.
  - destruct (negb _); [| reflexivity].
    assert (Hleb : (length name <=? 31)%nat = true) by (apply Nat.leb_le; lia).
    rewrite Hleb. reflexivity.
Qed.

Lemma parent_loop_length (n : nat) (hwnd : HWND) (buf : wstring)
  (m : Machine W) :
  (length (events (util.parent_loop api n hwnd buf m)) <= 2 * n)%nat.
Proof.
  revert hwnd buf. induction n as [| n IH]; intros hwnd buf; [cbn; lia |].
  rewrite parent_loop_step. cbv zeta.
  destruct (_ =? NULL); [cbn; lia |].
  destruct (wstring_eqb _ _); [cbn; lia |].
  specialize (IH (GetParent api (world m) hwnd)
                 (class_buffer api (world m) buf
                               (GetParent api (world m) hwnd))).
  destruct (util.parent_loop api n _ _ m) as [[b m'] t].
  unfold events in *. cbn [snd length] in *. lia.
Qed.

Lemma is_explorer_file_view_length (hdc : HDC) (m : Machine W) :
  (1 <= length (events (util.is_explorer_file_view api hdc m)) <= 8)%nat.
Proof.
  rewrite is_explorer_file_view_run. cbv zeta.
  destruct (_ =? NULL); [cbn; lia |].
  destruct (_ || _); [cbn; lia |].
  pose proof (parent_loop_length 3 (WindowFromDC api (world m) hdc)
                (class_buffer api (world m) []
                              (WindowFromDC api (world m) hdc)) m) as H.
  destruct (util.parent_loop api 3 _ _ m) as [[b m'] t].
  unfold events in *. cbn [snd length] in *. lia.
Qed.

Lemma is_explorer_file_view_kinds (hdc : HDC) (m : Machine W) :
  forallb is_color_step (events (util.is_explorer_file_view api hdc m)) = true.
Proof.
  destruct (is_explorer_file_view_events api hdc m) as (t & -> & Ht).
  cbn [forallb is_color_step andb].
  apply forallb_forall. intros e He.
  pose proof (In_forallb_kind _ _ _ Ht He) as Hk.
  destruct e; cbn in Hk |- *; congruence.
Qed.

Lemma color_override_kinds (hdc : HDC) (m : Machine W) :
  forallb is_color_step (events (color_override api hdc m)) = true.
Proof.
  rewrite color_override_run. cbv zeta.
  pose proof (is_explorer_file_view_kinds hdc m) as Hfv.
  destruct (s_custom_color _); [| reflexivity].
  destruct (result (util.is_light_background _ _ _)); [reflexivity |].
  destruct (result (util.is_explorer_file_view _ _ _));
    unfold events at 1; cbn [snd forallb is_color_step andb];
    [rewrite forallb_app, Hfv; reflexivity | exact Hfv].
Qed.

Lemma color_override_length (hdc : HDC) (m : Machine W) :
  (length (events (color_override api hdc m)) <= 10)%nat.
Proof.
  rewrite color_override_run. cbv zeta.
  pose proof (is_explorer_file_view_length hdc m) as Hfv.
  destruct (s_custom_color _); [| cbn; lia].
  destruct (result (util.is_light_background _ _ _)); [cbn; lia |].
  destruct (result (util.is_explorer_file_view _ _ _));
    unfold events at 1; cbn [snd length]; rewrite ?length_app; cbn [length];
    lia.
Qed.

(** The trace of either replacement function, with each piece named. *)
Lemma run_call_trace (c : DrawCall) (m : Machine W) :
  let hdc := call_hdc c in
  let cf := util.change_font_in_struct (current_font api (world m) hdc) m in
  let font := result cf in
  let h := fst (CreateFontIndirectW api font (world m)) in
  let m1 := final (util.hdc_update_font api hdc m) in
  let run := run_call api c m in
  events run
  = [EvGetCurrentObject hdc (GetCurrentObject api (world m) hdc);
     EvGetObjectW (GetCurrentObject api (world m) hdc)]
    ++ events cf
    ++ [EvCreateFontIndirectW font h; EvSelectObject hdc h]
    ++ events (color_override api hdc m1)
    ++ [original_event c (result run); EvDeleteObject h].
Proof.
  intros hdc cf font h m1 run.
  pose proof (run_call_run api c m) as E. cbv zeta in E.
  fold hdc in E. fold m1 in E. fold run in E.
  pose proof (hdc_update_font_run api hdc m) as E0. cbv zeta in E0.
  fold cf in E0. fold font in E0. fold h in E0.
  assert (Hres : result run
                 = fst (original_fn api c
                          (world (final (color_override api hdc m1)))))
    by now rewrite E.
  rewrite <- Hres in E. rewrite E at 1. unfold events at 1. cbn [snd].
  rewrite E0. unfold events at 1, result at 1. cbn [fst snd util.m_handle].
  cbn [app]. rewrite <- app_assoc. reflexivity.
Qed.

End Trace.

(** ** What an intercepted call does and does not do *)

Lemma original_event_more_kinds (c : DrawCall) (r : INT) :
  is_SelectObject (original_event c r) = false
  /\ is_lifecycle (original_event c r) = false
  /\ is_Wh_Log (original_event c r) = false.
Proof. destruct c; repeat split. Qed.

Lemma filter_app_nil (p : Event -> bool) (a b : list Event) :
  filter p a = [] -> filter p b = [] -> filter p (a ++ b) = [].
Proof. intros Ha Hb. now rewrite filter_app, Ha, Hb. Qed.

(** X5. In each intercepted call [SelectObject] is called exactly once, to
    select the newly created font: the font that was selected before is
    never selected back.  The one [DeleteObject] of the call, on that same
    font, comes after this [SelectObject] and is the last call made. *)
Theorem new_font_selected_once_never_restored :
  forall (W : Type) (api : Win32 W) (c : DrawCall) (m : Machine W),
    let hdc := call_hdc c in
    let tr := events (run_call api c m) in
    let font := snd (result (util.hdc_update_font api hdc m)) in
    let h := fst (CreateFontIndirectW api font (world m)) in
    filter is_SelectObject tr = [EvSelectObject hdc h]
    /\ last_event tr = Some (EvDeleteObject h)
    /\ (exists pre post,
          tr = pre ++ EvSelectObject hdc h :: post
          /\ count is_DeleteObject pre = 0%nat
          /\ count is_DeleteObject post = 1%nat).
Proof.
  intros W api c m hdc tr font h.
  pose proof (run_call_trace api c m) as E. cbv zeta in E. fold hdc in E.
  pose proof (hdc_update_font_run api hdc m) as E0. cbv zeta in E0.
  assert (Hfont : font = result (util.change_font_in_struct
                                   (current_font api (world m) hdc) m))
    by (unfold font; now rewrite E0).
  rewrite <- Hfont in E. fold h in E. fold tr in E.
  pose proof (change_font_in_struct_pure
                (current_font api (world m) hdc) m) as [_ Hlog].
  pose proof (color_override_kinds api hdc
                (final (util.hdc_update_font api hdc m))) as Hcol.
  destruct (original_event_more_kinds c (result (run_call api c m)))
    as (Hos & _ & _).
  destruct (original_event_kinds c (result (run_call api c m)))
    as (_ & Hod & _).
  split; [| split].
  - rewrite E. rewrite !filter_app. cbn [filter is_SelectObject].
    rewrite (filter_none is_SelectObject is_Wh_Log) by (kinds || exact Hlog).
    rewrite (filter_none is_SelectObject is_color_step)
      by (kinds || exact Hcol).
    rewrite Hos. reflexivity.
  - rewrite E. unfold last_event. rewrite !rev_app_distr. reflexivity.
  - exists ([EvGetCurrentObject hdc (GetCurrentObject api (world m) hdc);
             EvGetObjectW (GetCurrentObject api (world m) hdc)]
            ++ events (util.change_font_in_struct
                         (current_font api (world m) hdc) m)
            ++ [EvCreateFontIndirectW font h]).
    exists (events (color_override api hdc
                      (final (util.hdc_update_font api hdc m)))
            ++ [original_event c (result (run_call api c m));
                EvDeleteObject h]).
    split; [| split].
    + rewrite E. rewrite <- !app_assoc. reflexivity.
    + rewrite !count_app, !count_cons, !count_nil.
      rewrite (count_none is_DeleteObject is_Wh_Log) by (kinds || exact Hlog).
      reflexivity.
    + rewrite !count_app, !count_cons, !count_nil.
      rewrite (count_none is_DeleteObject is_color_step)
        by (kinds || exact Hcol).
      rewrite Hod. reflexivity.
Qed.

Section HotPath.
Context {W : Type}.
Variable api : Win32 W.

Lemma run_calls_step (c : DrawCall) (cs : list DrawCall) (m : Machine W) :
  events (run_calls api (c :: cs) m)
  = events (run_call api c m)
    ++ events (run_calls api cs (final (run_call api c m)))
  /\ final (run_calls api (c :: cs) m)
     = final (run_calls api cs (final (run_call api c m))).
Proof.
  cbn [run_calls]. unfold bind.
  destruct (run_call api c m) as [[r m1] t1]. unfold final, events.
  cbn [fst snd].
  destruct (run_calls api cs m1) as [[u m2] t2]. split; reflexivity.
Qed.

Lemma run_call_lifecycle (c : DrawCall) (m : Machine W) :
  count is_lifecycle (events (run_call api c m)) = 0%nat.
Proof.
  rewrite run_call_trace. cbv zeta.
  pose proof (change_font_in_struct_pure
                (current_font api (world m) (call_hdc c)) m) as [_ Hlog].
  pose proof (color_override_kinds api (call_hdc c)
                (final (util.hdc_update_font api (call_hdc c) m))) as Hcol.
  destruct (original_event_more_kinds c (result (run_call api c m)))
    as (_ & Hol & _).
  rewrite !count_app, !count_cons, !count_nil.
  rewrite (count_none is_lifecycle is_Wh_Log) by (kinds || exact Hlog).
  rewrite (count_none is_lifecycle is_color_step) by (kinds || exact Hcol).
  rewrite Hol. reflexivity.
Qed.

Lemma run_call_logs (c : DrawCall) (m : Machine W) :
  count is_Wh_Log (events (run_call api c m))
  = if (31 <? length (s_font_name (globals m)))%nat then 1%nat else 0%nat.
Proof.
  rewrite run_call_trace. cbv zeta.
  pose proof (color_override_kinds api (call_hdc c)
                (final (util.hdc_update_font api (call_hdc c) m))) as Hcol.
  destruct (original_event_more_kinds c (result (run_call api c m)))
    as (_ & _ & Hog).
  rewrite !count_app, !count_cons, !count_nil.
  rewrite (count_none is_Wh_Log is_color_step _ ltac:(kinds) Hcol).
  rewrite Hog, change_font_in_struct_events. cbv zeta.
  destruct (_ <? _)%nat; reflexivity.
Qed.

End HotPath.

(** X6. The hot path keeps away from the settings store and from the
    hooking facility: over any sequence of intercepted calls no setting is
    read, no library is loaded, no address is resolved and no hook is
    registered, and the settings in memory are, at the end, what they were
    at the start. *)
Theorem hot_path_leaves_settings_alone :
  forall (W : Type) (api : Win32 W) (cs : list DrawCall) (m : Machine W),
    count is_lifecycle (events (run_calls api cs m)) = 0%nat
    /\ globals (final (run_calls api cs m)) = globals m.
Proof.
  intros W api cs m. split; [| apply run_calls_globals].
  revert m. induction cs as [| c cs IH]; intros m; [reflexivity |].
  destruct (run_calls_step api c cs m) as [-> _].
  now rewrite count_app, run_call_lifecycle, IH.
Qed.

(** X7. An intercepted call is a bounded piece of work: it makes at least
    6 and at most 17 calls into its collaborators (the original entry point
    and a possible diagnostic included), whatever the window tree looks
    like. *)
Theorem intercepted_call_is_bounded :
  forall (W : Type) (api : Win32 W) (c : DrawCall) (m : Machine W),
    (6 <= length (events (run_call api c m)) <= 17)%nat.
Proof.
  intros W api c m. rewrite run_call_trace. cbv zeta.
  pose proof (color_override_length api (call_hdc c)
                (final (util.hdc_update_font api (call_hdc c) m))) as Hcol.
  rewrite !length_app, change_font_in_struct_events. cbv zeta.
  destruct (_ <? _)%nat; cbn [length]; lia.
Qed.

(** X8. The diagnostic is per call: with an override name of more than 31
    units every intercepted call logs once, so a sequence of [n] calls
    logs [n] times; with any other name, "None" included, nothing is ever
    logged. *)
Theorem too_long_name_logs_on_every_call :
  forall (W : Type) (api : Win32 W) (cs : list DrawCall) (m : Machine W),
    count is_Wh_Log (events (run_calls api cs m))
    = if (31 <? length (s_font_name (globals m)))%nat
      then length cs else 0%nat.
Proof.
  intros W api cs. induction cs as [| c cs IH]; intros m.
  - destruct (_ <? _)%nat; reflexivity.
  - destruct (run_calls_step api c cs m) as [-> _].
    rewrite count_app, run_call_logs, IH, run_call_globals.
    destruct (_ <? _)%nat; reflexivity.
Qed.

(** ** More on colours *)

(** X9. The colour [get_custom_text_color] composes is a proper
    [0x00BBGGRR] value: it lies below [2^24], and taking it apart again
    with [GetRValue], [GetGValue] and [GetBValue] gives back the three
    settings reduced modulo 256.  Composing it reads the settings only. *)
Theorem get_custom_text_color_round_trip :
  forall (W : Type) (m : Machine W),
    let run := util.get_custom_text_color m in
    let color := result run in
    0 <= color < 2 ^ 24
    /\ GetRValue color = s_text_r (globals m) mod 256
    /\ GetGValue color = s_text_g (globals m) mod 256
    /\ GetBValue color = s_text_b (globals m) mod 256
    /\ final run = m
    /\ events run = [].
Proof.
  intros W m run color.
  assert (Hc : color = RGB (s_text_r (globals m) mod 256)
                           (s_text_g (globals m) mod 256)
                           (s_text_b (globals m) mod 256)).
  { unfold color, run, util.get_custom_text_color, result. cbn.
    now rewrite !to_uint8_land. }
  pose proof (Z.mod_pos_bound (s_text_r (globals m)) 256 ltac:(lia)) as Hr.
  pose proof (Z.mod_pos_bound (s_text_g (globals m)) 256 ltac:(lia)) as Hg.
  pose proof (Z.mod_pos_bound (s_text_b (globals m)) 256 ltac:(lia)) as Hb.
  destruct (RGB_components _ _ _ Hr Hg Hb) as (HR & HG & HB).
  rewrite Hc. split; [| repeat split; assumption].
  rewrite RGB_sum, !Z.mod_mod by lia. change (2 ^ 24) with 16777216. lia.
Qed.

Lemma is_light_background_bytes {W} (api : Win32 W) (m : Machine W) hdc r g b :
  0 <= r < 256 -> 0 <= g < 256 -> 0 <= b < 256 ->
  GetBkColor api (world m) hdc = RGB r g b ->
  result (util.is_light_background api hdc m)
  = (128 <? (299 * r + 587 * g + 114 * b) / 1000).
Proof.
  intros Hr Hg Hb Hbk. rewrite is_light_background_result. cbv zeta.
  rewrite Hbk. destruct (RGB_components r g b Hr Hg Hb) as (-> & -> & ->).
  reflexivity.
Qed.

(** X10. Brightening never turns a light background dark: if a background
    is classified as light, so is every background whose red, green and
    blue are each at least as large. *)
Theorem is_light_background_monotone :
  forall (W : Type) (api : Win32 W) (m m' : Machine W) (hdc hdc' : HDC)
         (r g b r' g' b' : Z),
    0 <= r <= r' -> r' < 256 ->
    0 <= g <= g' -> g' < 256 ->
    0 <= b <= b' -> b' < 256 ->
    GetBkColor api (world m) hdc = RGB r g b ->
    GetBkColor api (world m') hdc' = RGB r' g' b' ->
    result (util.is_light_background api hdc m) = true ->
    result (util.is_light_background api hdc' m') = true.
Proof.
  intros W api m m' hdc hdc' r g b r' g' b' Hr Hr' Hg Hg' Hb Hb' Hbk Hbk'.
  rewrite (is_light_background_bytes api m hdc r g b) by (lia || assumption).
  rewrite (is_light_background_bytes api m' hdc' r' g' b')
    by (lia || assumption).
  rewrite !Z.ltb_lt. intros Hl.
  eapply Z.lt_le_trans; [exact Hl |].
  apply Z.div_le_mono; lia.
Qed.

Lemma is_light_background_monotone_witness :
  let m := mkMachine Sample.initial_globals (Sample2.desk "None" 1 0 0 0) in
  result (util.is_light_background Desk.api 2 m) = true
  /\ result (util.is_light_background Desk.api 3 m) = true.
Proof.
  intros m.
  assert (H2 : result (util.is_light_background Desk.api 2 m) = true)
    by reflexivity.
  split; [exact H2 |].
  apply (is_light_background_monotone Desk.t Desk.api m m 2 3
           255 255 225 255 255 255); try lia; try reflexivity.
Defined.

(** X11. On a grey background the luminance is the grey level itself (the
    three weights add up to 1000), so a grey [(v,v,v)] is light exactly
    from level 129 on. *)
Theorem is_light_background_grey :
  forall (W : Type) (api : Win32 W) (m : Machine W) (hdc : HDC) (v : Z),
    0 <= v < 256 ->
    GetBkColor api (world m) hdc = RGB v v v ->
    (result (util.is_light_background api hdc m) = true <-> 129 <= v).
Proof.
  intros W api m hdc v Hv Hbk.
  rewrite (is_light_background_bytes api m hdc v v v) by assumption.
  replace (299 * v + 587 * v + 114 * v) with (v * 1000) by lia.
  rewrite Z.div_mul by lia. rewrite Z.ltb_lt. lia.
Qed.

Lemma is_light_background_grey_witness :
  let m := mkMachine Sample.initial_globals (Sample.desk "None" 1 0 0 0) in
  (result (util.is_light_background Desk.api 5 m) = true <-> 129 <= 128)
  /\ (result (util.is_light_background Desk.api 2 m) = true <-> 129 <= 255).
Proof.
  intros m. split.
  - apply (is_light_background_grey Desk.t Desk.api m 5 128);
      [lia | reflexivity].
  - apply (is_light_background_grey Desk.t Desk.api m 2 255);
      [lia | reflexivity].
Defined.

(** X12. Green decides at the extremes.  A background whose green is at
    most 40 is never light, however strong its red and blue (pure magenta
    counts as dark); a background whose green is at least 220 is always
    light. *)
Theorem is_light_background_green :
  forall (W : Type) (api : Win32 W) (m : Machine W) (hdc : HDC) (r g b : Z),
    0 <= r < 256 -> 0 <= g < 256 -> 0 <= b < 256 ->
    GetBkColor api (world m) hdc = RGB r g b ->
    (g <= 40 -> result (util.is_light_background api hdc m) = false)
    /\ (220 <= g -> result (util.is_light_background api hdc m) = true).
Proof.
  intros W api m hdc r g b Hr Hg Hb Hbk.
  rewrite (is_light_background_bytes api m hdc r g b) by assumption.
  split; intros Hgreen.
  - apply Z.ltb_ge. apply Z.lt_succ_r. apply Z.div_lt_upper_bound; lia.
  - apply Z.ltb_lt. apply Z.lt_le_trans with 129; [lia |].
    apply Z.div_le_lower_bound; lia.
Qed.

Lemma is_light_background_green_witness :
  let m := mkMachine Sample.initial_globals (Sample2.desk "None" 1 0 0 0) in
  result (util.is_light_background Desk.api 4 m) = false
  /\ result (util.is_light_background Desk.api 2 m) = true.
Proof.
  intros m. split.
  - apply (is_light_background_green Desk.t Desk.api m 4 255 0 255);
      try lia; reflexivity.
  - apply (is_light_background_green Desk.t Desk.api m 2 255 255 225);
      try lia; reflexivity.
Defined.

(** ** Failure of the collaborators *)

(** X13. When [GetBkColor] fails at the colour step and returns
    [CLR_INVALID], the background counts as light: the call sets no text
    colour and does not ask for the window. *)
Theorem failed_background_query_skips_override :
  forall (W : Type) (api : Win32 W) (c : DrawCall) (m : Machine W),
    let hdc := call_hdc c in
    let m1 := final (util.hdc_update_font api hdc m) in
    GetBkColor api (world m1) hdc = Desk.CLR_INVALID ->
    result (util.is_light_background api hdc m1) = true
    /\ count is_SetTextColor (events (run_call api c m)) = 0%nat
    /\ count is_WindowFromDC (events (run_call api c m)) = 0%nat.
Proof.
  intros W api c m hdc m1 Hbk.
  assert (Hlight : result (util.is_light_background api hdc m1) = true).
  { rewrite is_light_background_result. cbv zeta. rewrite Hbk. reflexivity. }
  split; [exact Hlight |].
  rewrite run_call_trace. cbv zeta. fold hdc. fold m1.
  pose proof (change_font_in_struct_pure
                (current_font api (world m) hdc) m) as [_ Hlog].
  destruct (original_event_kinds c (result (run_call api c m)))
    as (_ & _ & _ & Hos & _ & How).
  rewrite color_override_run. cbv zeta. rewrite Hlight.
  split.
  - rewrite !count_app, !count_cons, !count_nil.
    rewrite (count_none is_SetTextColor is_Wh_Log _ ltac:(kinds) Hlog).
    rewrite Hos. destruct (s_custom_color _); reflexivity.
  - rewrite !count_app, !count_cons, !count_nil.
    rewrite (count_none is_WindowFromDC is_Wh_Log _ ltac:(kinds) Hlog).
    rewrite How. destruct (s_custom_color _); reflexivity.
Qed.

Lemma failed_background_query_skips_override_witness :
  let m := mkMachine (Sample.settings "None" true 255 0 0)
                     (Sample2.desk "None" 1 255 0 0) in
  let c := CallDrawTextW 6 0 5 0 0 in
  result (util.is_explorer_file_view Desk.api 6 m) = true
  /\ count is_SetTextColor (events (run_call Desk.api c m)) = 0%nat.
Proof.
  intros m c. split; [reflexivity |].
  apply (failed_background_query_skips_override Desk.t Desk.api c m).
  reflexivity.
Defined.

(** X18. When the font selected in the device context cannot be read
    ([GetObjectW] fails), the font is created from the zeroed description:
    with an override name that fits, every field is zero and the face name
    is the override followed by zeros only; with "None", the all-zero
    description itself. *)
Theorem hdc_update_font_unreadable_font :
  forall (W : Type) (api : Win32 W) (m : Machine W) (hdc : HDC),
    let name := s_font_name (globals m) in
    let font := snd (result (util.hdc_update_font api hdc m)) in
    GetObjectW api (world m) (GetCurrentObject api (world m) hdc) = None ->
    (name = L "None" -> font = LOGFONTW_zero)
    /\ (name <> L "None" -> (length name <= 31)%nat ->
        Forall is_wchar name ->
        font = set_lfFaceName LOGFONTW_zero
                 (name ++ repeat 0 (LF_FACESIZE - length name))).
Proof.
  intros W api m hdc name font Hfail.
  assert (Hfont : font = result (util.change_font_in_struct LOGFONTW_zero m)).
  { unfold font. rewrite hdc_update_font_run. cbv zeta.
    unfold current_font. rewrite Hfail. reflexivity. }
  rewrite Hfont. split.
  - intros Hnone. now rewrite change_font_in_struct_none.
  - intros Hne Hlen Hname.
    assert (Hzero : valid_LOGFONTW LOGFONTW_zero).
    { split; [reflexivity |]. apply Forall_repeat, is_wchar_zero. }
    rewrite change_font_in_struct_fits by assumption.
    unfold result. cbn [fst]. f_equal. f_equal. fold name.
    rewrite face_tail. cbn [lfFaceName LOGFONTW_zero].
    rewrite skipn_repeat, <- repeat_app. f_equal.
    unfold LF_FACESIZE. lia.
Qed.

Lemma hdc_update_font_unreadable_font_witness :
  let m := mkMachine (Sample.settings "Arial" true 255 0 0)
                     (Sample2.desk "Arial" 1 255 0 0) in
  GetObjectW Desk.api (world m) (GetCurrentObject Desk.api (world m) 5) = None
  /\ snd (result (util.hdc_update_font Desk.api 5 m))
     = set_lfFaceName LOGFONTW_zero (Sample.face "Arial").
Proof.
  intros m. split; [reflexivity |].
  destruct (hdc_update_font_unreadable_font Desk.t Desk.api m 5 eq_refl)
    as [_ Hfits].
  apply Hfits;
    [vm_compute; discriminate | vm_compute; lia
    | apply Forall_is_wchar_dec; reflexivity].
Defined.

(** ** Settings and initialisation *)

(** [update_settings] reloads in full: afterwards the settings in
    memory are those of the store, whatever they were before; the world is
    untouched; the store is read five times and nothing else is called; and
    reloading twice is reloading once. *)
Lemma update_settings_reloads_in_full :
  forall (W : Type) (api : Win32 W) (m : Machine W) (g' : Globals),
    let run := util.update_settings api m in
    globals (final run) = stored_settings api (world m)
    /\ world (final run) = world m
    /\ final (util.update_settings api (mkMachine g' (world m))) = final run
    /\ final (util.update_settings api (final run)) = final run
    /\ forallb is_Wh_GetSetting (events run) = true
    /\ length (events run) = 5%nat.
Proof. intros W api m g' run. repeat split. Qed.

(** X15. [Wh_ModInit] loads the settings before it touches the hooking
    facility, then registers exactly two hooks, in this order: the address
    of "DrawTextW" with [draw_textw_hook], the address of "DrawTextExW"
    with [draw_text_exw_hook].  The settings it leaves are those of the
    store. *)
Theorem Wh_ModInit_settings_then_hooks :
  forall (W : Type) (api : Win32 W) (m : Machine W),
    let w := world m in
    let user32 := LoadLibraryW api w (L "user32.dll") in
    let t1 := GetProcAddress api w user32 "DrawTextW" in
    let w1 := Wh_SetFunctionHook api t1 draw_textw_hook_fn w in
    let t2 := GetProcAddress api w1 user32 "DrawTextExW" in
    let run := Wh_ModInit api m in
    globals (final run) = stored_settings api w
    /\ world (final run) = Wh_SetFunctionHook api t2 draw_text_exw_hook_fn w1
    /\ filter is_Wh_SetFunctionHook (events run)
       = [EvWh_SetFunctionHook t1 draw_textw_hook_fn;
          EvWh_SetFunctionHook t2 draw_text_exw_hook_fn]
    /\ (exists reads rest,
          events run = reads ++ rest
          /\ reads = events (util.update_settings api m)
          /\ forallb is_Wh_GetSetting reads = true
          /\ count is_Wh_GetSetting rest = 0%nat
          /\ count is_Wh_SetFunctionHook rest = 2%nat).
Proof.
  intros W api m w user32 t1 w1 t2 run.
  split; [reflexivity |]. split; [reflexivity |]. split; [reflexivity |].
  exists (events (util.update_settings api m)).
  exists [EvLoadLibraryW (L "user32.dll") user32;
          EvGetProcAddress user32 "DrawTextW" t1;
          EvWh_SetFunctionHook t1 draw_textw_hook_fn;
          EvGetProcAddress user32 "DrawTextExW" t2;
          EvWh_SetFunctionHook t2 draw_text_exw_hook_fn].
  repeat split.
Qed.

(** ** From a settings change to the next call *)

(** X16. With "font.customColor" stored as 1 and "font.name" stored as
    "None", the first intercepted call after [Wh_ModSettingsChanged]
    creates its font from the unmodified description of the current font;
    on a surface that is not light and is a file view the original entry
    point runs in the world where the text colour has been set to the
    stored colour (each channel modulo 256); on a light surface it runs in
    the world the font step left.  In both cases its result is returned as
    it is and the font is deleted afterwards. *)
Theorem settings_change_reaches_next_call :
  forall (W : Type) (api : Win32 W) (c : DrawCall) (m : Machine W),
    let w := world m in
    let hdc := call_hdc c in
    let m0 := final (Wh_ModSettingsChanged api m) in
    let r0 := util.hdc_update_font api hdc m0 in
    let m1 := final r0 in
    let h := fst (CreateFontIndirectW api (current_font api w hdc) w) in
    let color := RGB (Wh_GetIntSetting api w (L "font.textR") mod 256)
                     (Wh_GetIntSetting api w (L "font.textG") mod 256)
                     (Wh_GetIntSetting api w (L "font.textB") mod 256) in
    let run := run_call api c m0 in
    let outcome w_pre :=
      result run = fst (original_fn api c w_pre)
      /\ world (final run) = DeleteObject api h (snd (original_fn api c w_pre))
    in
    Wh_GetIntSetting api w (L "font.customColor") = 1 ->
    Wh_GetStringSetting api w (L "font.name") = L "None" ->
    snd (result r0) = current_font api w hdc
    /\ (result (util.is_light_background api hdc m1) = false ->
        result (util.is_explorer_file_view api hdc m1) = true ->
        outcome (SetTextColor api hdc color (world m1)))
    /\ (result (util.is_light_background api hdc m1) = true ->
        outcome (world m1)).
Proof.
  intros W api c m w hdc m0 r0 m1 h color run outcome Hon Hnone.
  assert (Hg : globals m0 = stored_settings api w) by reflexivity.
  assert (Hw : world m0 = w) by reflexivity.
  assert (Hname : s_font_name (globals m0) = L "None")
    by (rewrite Hg; exact Hnone).
  assert (Hflag : s_custom_color (globals m0) = true)
    by (rewrite Hg; unfold stored_settings; cbn [s_custom_color];
        rewrite Hon; reflexivity).
  assert (Hfont : snd (result r0) = current_font api w hdc).
  { unfold r0. rewrite hdc_update_font_run. cbv zeta.
    rewrite change_font_in_struct_none by exact Hname.
    rewrite Hw. reflexivity. }
  assert (Hh : util.m_handle (fst (result r0)) = h).
  { unfold r0. rewrite hdc_update_font_run. cbv zeta.
    rewrite change_font_in_struct_none by exact Hname.
    rewrite Hw. reflexivity. }
  assert (Hcolor : configured_color (globals m0) = color).
  { rewrite Hg. unfold configured_color, color, stored_settings.
    cbn [s_text_r s_text_g s_text_b]. now rewrite !to_uint8_land. }
  destruct (run_call_delegation api c m0) as [Hres Hworld].
  cbv zeta in Hres, Hworld. fold hdc in Hres, Hworld.
  fold r0 in Hres, Hworld. fold m1 in Hres, Hworld. fold run in Hres, Hworld.
  rewrite Hflag, Hcolor in Hres, Hworld. rewrite Hh in Hworld.
  split; [exact Hfont |]. split.
  - intros Hdark Hfv. rewrite Hdark, Hfv in Hres, Hworld.
    split; assumption.
  - intros Hlight. rewrite Hlight in Hres, Hworld. split; assumption.
Qed.

Lemma settings_change_reaches_next_call_witness :
  let m := mkMachine Sample.initial_globals (Sample.desk "None" 1 255 0 0) in
  let m0 := final (Wh_ModSettingsChanged Desk.api m) in
  Desk.drawn (world (final (run_call Desk.api (CallDrawTextW 1 0 5 0 0) m0)))
  = [(1, RGB 255 0 0, 501)]
  /\ Desk.drawn
       (world (final (run_call Desk.api (CallDrawTextExW 2 0 5 0 0 0) m0)))
     = [(2, Sample.black, 501)].
Proof.
  intros m m0.
  destruct (settings_change_reaches_next_call Desk.t Desk.api
              (CallDrawTextW 1 0 5 0 0) m eq_refl eq_refl)
    as (_ & Hdark & _).
  destruct (settings_change_reaches_next_call Desk.t Desk.api
              (CallDrawTextExW 2 0 5 0 0 0) m eq_refl eq_refl)
    as (_ & _ & Hlight).
  destruct (Hdark eq_refl eq_refl) as [_ Hd].
  destruct (Hlight eq_refl) as [_ Hl].
  split.
  - fold m0 in Hd. rewrite Hd. reflexivity.
  - fold m0 in Hl. rewrite Hl. reflexivity.
Defined.

(** ** Short parent chains *)

Section ShortChain.
Context {W : Type}.
Variable api : Win32 W.

Lemma parent_loop_stops (n k : nat) (hwnd : HWND) (buf : wstring)
  (m : Machine W) :
  hwnd <> NULL -> (1 <= k)%nat ->
  nth_parent api (world m) k hwnd = NULL ->
  (count is_GetParent (events (util.parent_loop api n hwnd buf m)) <= k)%nat.
Proof.
  revert k hwnd buf. induction n as [| n IH]; intros k hwnd buf Hh Hk Hnull;
    [cbn; lia |].
  rewrite parent_loop_step. cbv zeta.
  destruct (Z.eqb_spec (GetParent api (world m) hwnd) NULL) as [Hp | Hp];
    [cbn; lia |].
  destruct (wstring_eqb _ _); [cbn; lia |].
  destruct k as [| k]; [lia |].
  rewrite nth_parent_shift in Hnull by assumption.
  destruct k as [| k]; [cbn in Hnull; contradiction |].
  specialize (IH (S k) (GetParent api (world m) hwnd)
                 (class_buffer api (world m) buf
                               (GetParent api (world m) hwnd))
                 Hp ltac:(lia) Hnull).
  destruct (util.parent_loop api n _ _ m) as [[b m'] t].
  unfold events, count in *. cbn in *. lia.
Qed.

End ShortChain.

(** X17. The walk stops where the parent chain ends.  If the [k]-th
    ancestor of the window is missing, at most [k] parent links are
    followed.  In particular, for a top-level window one link is tried and
    the answer is true exactly when the window's own class is one of the two
    list classes: being a "SHELLDLL_DefView" itself does not count. *)
Theorem is_explorer_file_view_short_chain :
  forall (W : Type) (api : Win32 W) (m : Machine W) (hdc : HDC) (k : nat),
    let w := world m in
    let hwnd := WindowFromDC api w hdc in
    let cls := ClassName api w hwnd in
    let r := util.is_explorer_file_view api hdc m in
    hwnd <> NULL -> (1 <= k)%nat -> nth_parent api w k hwnd = NULL ->
    (count is_GetParent (events r) <= k)%nat
    /\ (k = 1%nat ->
        (result r = true
         <-> cls = L "DirectUIHWND" \/ cls = L "SysListView32")).
Proof.
  intros W api m hdc k w hwnd cls r Hn Hk Hnull. split.
  - unfold r. rewrite is_explorer_file_view_run. cbv zeta.
    fold w. fold hwnd.
    destruct (hwnd =? NULL); [cbn; lia |].
    destruct (_ || _); [cbn; lia |].
    pose proof (parent_loop_stops api 3 k hwnd
                  (class_buffer api w [] hwnd) m Hn Hk Hnull) as Hl.
    destruct (util.parent_loop api 3 hwnd _ m) as [[b m'] t].
    unfold events, count in *. cbn in *. exact Hl.
  - intros ->. unfold r. rewrite is_explorer_file_view_exact. cbv zeta.
    fold w. fold hwnd. fold cls.
    assert (Htop : GetParent api w hwnd = NULL).
    { rewrite nth_parent_shift in Hnull by assumption. exact Hnull. }
    split.
    + intros (_ & [Hl | [(j & Hj & Hnn & _) | (_ & Hp & _)]]);
        [exact Hl | | contradiction].
      exfalso. apply Hnn. destruct j as [| j]; [lia |].
      rewrite nth_parent_shift by assumption. rewrite Htop.
      destruct j; [reflexivity | apply nth_parent_null].
    + intros Hl. split; [exact Hn | left; exact Hl].
Qed.

Lemma is_explorer_file_view_short_chain_witness :
  let m := mkMachine Sample.initial_globals (Sample.desk "None" 1 255 0 0) in
  let top := mkMachine Sample.initial_globals
               (Desk.mk [(1, Desk.mkDC 500 0 0 110)] Sample.windows
                        [(500, Sample.segoe)] 501 [] [] [] [] []) in
  (count is_GetParent (events (util.is_explorer_file_view Desk.api 2%Z m))
   <= 1)%nat
  /\ ClassName Desk.api (world top) (WindowFromDC Desk.api (world top) 1)
     = L "SHELLDLL_DefView"
  /\ result (util.is_explorer_file_view Desk.api 1 top) = false.
Proof.
  intros m top.
  destruct (is_explorer_file_view_short_chain Desk.t Desk.api m 2 1)
    as [Hcount _]; [vm_compute; discriminate | lia | reflexivity |].
  destruct (is_explorer_file_view_short_chain Desk.t Desk.api top 1 1)
    as [_ Hiff]; [vm_compute; discriminate | lia | reflexivity |].
  split; [exact Hcount |]. split; [reflexivity |].
  apply not_true_is_false. intros Htrue.
  apply (Hiff eq_refl) in Htrue.
  destruct Htrue as [H | H]; vm_compute in H; discriminate.
Defined.

(** The bounds of an intercepted call are reached: six calls when the
    colour override is off, seventeen when a too-long name is logged and
    the shell view is found at the third parent. *)
Example intercepted_call_bounds_are_tight :
  length (events (run_call Desk.api (CallDrawTextW 1 0 5 0 0)
                    (mkMachine (Sample.settings "None" false 0 0 0)
                               (Sample.desk "None" 0 0 0 0))))
  = 6%nat
  /\ length (events (run_call Desk.api (CallDrawTextW 5 0 5 0 0)
                       (mkMachine
                          (Sample.settings Sample.long_name true 0 0 0)
                          (Sample.desk Sample.long_name 1 0 0 0))))
     = 17%nat.
Proof. split; reflexivity. Qed.

(** ** The font step and the colour settings *)

Lemma change_font_in_struct_name_only {W} (font : LOGFONTW)
  (g g' : Globals) (w : W) :
  s_font_name g = s_font_name g' ->
  result (util.change_font_in_struct font (mkMachine g w))
  = result (util.change_font_in_struct font (mkMachine g' w))
  /\ events (util.change_font_in_struct font (mkMachine g w))
     = events (util.change_font_in_struct font (mkMachine g' w)).
Proof.
  intros Hname.
  unfold util.change_font_in_struct, bind, get_globals, result, events.
  cbn [globals]. rewrite Hname.
  destruct (negb _); [| split; reflexivity].
  destruct (_ <=? _)%nat; split; reflexivity.
Qed.

(** X19. The font step does not look at the colour settings: two runs of
    [hdc_update_font] in the same world whose settings agree on the font
    name create the same font from the same description, make the same
    calls and leave the same world, whatever the flag and the three colour
    channels are. *)
Theorem font_step_ignores_colour_settings :
  forall (W : Type) (api : Win32 W) (hdc : HDC) (g g' : Globals) (w : W),
    s_font_name g = s_font_name g' ->
    let r := util.hdc_update_font api hdc (mkMachine g w) in
    let r' := util.hdc_update_font api hdc (mkMachine g' w) in
    result r = result r'
    /\ events r = events r'
    /\ world (final r) = world (final r').
Proof.
  intros W api hdc g g' w Hname r r'.
  unfold r, r'. rewrite !hdc_update_font_run. cbv zeta. cbn [world].
  destruct (change_font_in_struct_name_only
              (current_font api w hdc) g g' w Hname) as [Hres Hev].
  rewrite Hres, Hev. repeat split.
Qed.

Lemma font_step_ignores_colour_settings_witness :
  let w := Sample.desk "Arial" 1 255 0 0 in
  let on := Sample.settings "Arial" true 255 0 0 in
  let off := Sample.settings "Arial" false 1 2 3 in
  events (util.hdc_update_font Desk.api 1 (mkMachine on w))
  = events (util.hdc_update_font Desk.api 1 (mkMachine off w)).
Proof.
  intros w on off.
  destruct (font_step_ignores_colour_settings Desk.t Desk.api 1 on off w
              eq_refl) as (_ & Hev & _).
  exact Hev.
Defined.

(** ** Every font created is deleted *)

Lemma flat_map_none {B} (f : Event -> list B) (q : Event -> bool)
  (l : list Event) :
  (forall e, q e = true -> f e = []) ->
  forallb q l = true -> flat_map f l = [].
Proof.
  intros Hq. induction l as [| e l IH]; [reflexivity |].
  cbn [forallb]. rewrite andb_true_iff. intros [He Hl].
  cbn [flat_map]. rewrite (Hq e He). now apply IH.
Qed.

Lemma run_call_handles {W} (api : Win32 W) (c : DrawCall) (m : Machine W) :
  let font := snd (result (util.hdc_update_font api (call_hdc c) m)) in
  let h := fst (CreateFontIndirectW api font (world m)) in
  created_handles (events (run_call api c m)) = [h]
  /\ deleted_handles (events (run_call api c m)) = [h].
Proof.
  intros font h.
  pose proof (run_call_trace api c m) as E. cbv zeta in E.
  pose proof (hdc_update_font_run api (call_hdc c) m) as E0. cbv zeta in E0.
  assert (Hfont : font = result (util.change_font_in_struct
                                   (current_font api (world m) (call_hdc c))
                                   m))
    by (unfold font; now rewrite E0).
  rewrite <- Hfont in E. fold h in E.
  pose proof (change_font_in_struct_pure
                (current_font api (world m) (call_hdc c)) m) as [_ Hlog].
  pose proof (color_override_kinds api (call_hdc c)
                (final (util.hdc_update_font api (call_hdc c) m))) as Hcol.
  assert (Ho : created_handle (original_event c (result (run_call api c m)))
               = []
               /\ deleted_handle
                    (original_event c (result (run_call api c m))) = [])
    by (destruct c; split; reflexivity).
  destruct Ho as [Hoc Hod].
  unfold created_handles, deleted_handles. rewrite E.
  rewrite !flat_map_app. cbn [flat_map created_handle deleted_handle app].
  rewrite (flat_map_none created_handle is_Wh_Log _ ltac:(kinds) Hlog).
  rewrite (flat_map_none deleted_handle is_Wh_Log _ ltac:(kinds) Hlog).
  rewrite (flat_map_none created_handle is_color_step _ ltac:(kinds) Hcol).
  rewrite (flat_map_none deleted_handle is_color_step _ ltac:(kinds) Hcol).
  rewrite Hoc, Hod. split; reflexivity.
Qed.

(** X14. The hooks delete every font they create and nothing else: over
    any sequence of intercepted calls, in every world, the handles passed
    to [DeleteObject] are exactly the handles [CreateFontIndirectW]
    returned, in the same order, one for each call. *)
Theorem every_created_font_is_deleted :
  forall (W : Type) (api : Win32 W) (cs : list DrawCall) (m : Machine W),
    let tr := events (run_calls api cs m) in
    deleted_handles tr = created_handles tr
    /\ length (created_handles tr) = length cs
    /\ count is_CreateFontIndirectW tr = length cs
    /\ count is_DeleteObject tr = length cs.
Proof.
  intros W api cs. induction cs as [| c cs IH]; intros m tr.
  - repeat split.
  - destruct (run_calls_step api c cs m) as [Hev _].
    destruct (IH (final (run_call api c m))) as (IHd & IHl & IHc & IHk).
    destruct (run_call_handles api c m) as [Hc Hd].
    subst tr. rewrite Hev. unfold created_handles, deleted_handles in *.
    rewrite !flat_map_app, !count_app, !length_app.
    rewrite Hc, Hd, IHd, IHl, IHc, IHk.
    pose proof (run_call_trace api c m) as E. cbv zeta in E.
    pose proof (change_font_in_struct_pure
                  (current_font api (world m) (call_hdc c)) m)
      as [_ Hlog].
    pose proof (color_override_kinds api (call_hdc c)
                  (final (util.hdc_update_font api (call_hdc c) m)))
      as Hcol.
    destruct (original_event_kinds c (result (run_call api c m)))
      as (_ & Hod & Hoc & _).
    repeat split.
    + rewrite E, !count_app, !count_cons, !count_nil.
      rewrite (count_none is_CreateFontIndirectW is_Wh_Log _
                          ltac:(kinds) Hlog).
      rewrite (count_none is_CreateFontIndirectW is_color_step _
                          ltac:(kinds) Hcol).
      rewrite Hoc. reflexivity.
    + rewrite E, !count_app, !count_cons, !count_nil.
      rewrite (count_none is_DeleteObject is_Wh_Log _ ltac:(kinds) Hlog).
      rewrite (count_none is_DeleteObject is_color_step _ ltac:(kinds) Hcol).
      rewrite Hod. reflexivity.
Qed.

(** ** File views, when the parent can be queried *)

(** X20. Provided the class-name query on the parent of the owning window
    succeeds (or there is no parent), [is_explorer_file_view] answers true
    exactly when there is a window and either its class is "DirectUIHWND"
    or "SysListView32" or one of its first three ancestors has class
    "SHELLDLL_DefView".  It then answers false without a window, true
    without following any parent link for the two list classes, and false
    when no ancestor within 3 links is a shell view even if the 4th is.
    It never follows more than 3 parent links and changes nothing. *)
Theorem is_explorer_file_view_when_parent_answers :
  forall (W : Type) (api : Win32 W) (m : Machine W) (hdc : HDC),
    let w := world m in
    let hwnd := WindowFromDC api w hdc in
    let cls := ClassName api w hwnd in
    let r := util.is_explorer_file_view api hdc m in
    let list_class := cls = L "DirectUIHWND" \/ cls = L "SysListView32" in
    (GetParent api w hwnd <> NULL ->
     ClassName api w (GetParent api w hwnd) <> []) ->
    (result r = true <->
       hwnd <> NULL
       /\ (list_class
           \/ ancestor_within api w 3 hwnd (L "SHELLDLL_DefView")))
    /\ (hwnd = NULL -> result r = false)
    /\ (hwnd <> NULL -> list_class ->
        result r = true /\ count is_GetParent (events r) = 0%nat)
    /\ (hwnd <> NULL -> ~ list_class ->
        (forall k, (1 <= k <= 3)%nat ->
                   ClassName api w (nth_parent api w k hwnd)
                   <> L "SHELLDLL_DefView") ->
        ClassName api w (nth_parent api w 4 hwnd) = L "SHELLDLL_DefView" ->
        result r = false)
    /\ (count is_GetParent (events r) <= 3)%nat
    /\ final r = m.
Proof.
  intros W api m hdc w hwnd cls r list_class Hparent.
  assert (Hiff : result r = true <->
                 hwnd <> NULL
                 /\ (list_class
                     \/ ancestor_within api w 3 hwnd (L "SHELLDLL_DefView"))).
  { unfold r. rewrite is_explorer_file_view_exact. cbv zeta.
    fold w. fold hwnd. fold cls. fold list_class. split.
    - intros (Hn & [Hl | [Ha | (_ & Hp & Hf)]]); [tauto | tauto |].
      exfalso. exact (Hparent Hp Hf).
    - intros (Hn & [Hl | Ha]); tauto. }
  assert (Hlist : list_class ->
                  wstring_eqb (class_buffer api w [] hwnd) (L "DirectUIHWND")
                  || wstring_eqb (class_buffer api w [] hwnd)
                                 (L "SysListView32") = true).
  { intros Hl. apply orb_true_iff.
    rewrite !class_buffer_eqb by (cbn; lia). fold cls.
    destruct Hl as [Hl | Hl]; [left | right]; left; exact Hl. }
  split; [exact Hiff |].
  split.
  { intros Hn. apply not_true_is_false. intros E.
    apply Hiff in E. tauto. }
  split.
  { intros Hn Hc. split; [apply Hiff; tauto |].
    unfold r. rewrite is_explorer_file_view_run. cbv zeta.
    fold w. fold hwnd.
    apply Z.eqb_neq in Hn. rewrite Hn.
    rewrite (Hlist Hc). reflexivity. }
  split.
  { intros Hn Hc Hnear _. apply not_true_is_false. intros E.
    apply Hiff in E. destruct E as (_ & [Hl | (k & Hk & _ & Hcls)]).
    - contradiction.
    - exfalso. exact (Hnear k Hk Hcls). }
  split.
  { unfold r. rewrite is_explorer_file_view_run. cbv zeta.
    destruct (_ =? NULL); [cbn; lia |].
    destruct (_ || _); [cbn; lia |].
    pose proof (parent_loop_links api 3 (WindowFromDC api (world m) hdc)
                  (class_buffer api (world m) []
                                (WindowFromDC api (world m) hdc)) m) as Hl.
    destruct (util.parent_loop api 3 _ _ m) as [[b m'] t].
    unfold events, count in *. cbn in *. exact Hl. }
  apply is_explorer_file_view_final.
Qed.

Lemma is_explorer_file_view_when_parent_answers_witness :
  let m := mkMachine Sample.initial_globals (Sample.desk "None" 1 255 0 0) in
  let w := world m in
  (WindowFromDC Desk.api w 3 = NULL
   /\ result (util.is_explorer_file_view Desk.api 3 m) = false)
  /\ (ClassName Desk.api w (WindowFromDC Desk.api w 6) = L "SysListView32"
      /\ result (util.is_explorer_file_view Desk.api 6 m) = true)
  /\ (ClassName Desk.api w (nth_parent Desk.api w 4 (WindowFromDC Desk.api w 4))
      = L "SHELLDLL_DefView"
      /\ result (util.is_explorer_file_view Desk.api 4 m) = false).
Proof.
  intros m w.
  destruct (is_explorer_file_view_when_parent_answers Desk.t Desk.api m 3)
    as (_ & Hnull & _);
    [intros H; exfalso; apply H; reflexivity |].
  destruct (is_explorer_file_view_when_parent_answers Desk.t Desk.api m 6)
    as (_ & _ & Hlist & _);
    [intros _; vm_compute; discriminate |].
  destruct (is_explorer_file_view_when_parent_answers Desk.t Desk.api m 4)
    as (_ & _ & _ & Hfar & _);
    [intros _; vm_compute; discriminate |].
  split; [split; [reflexivity | apply Hnull; reflexivity] |].
  split.
  - split; [reflexivity |].
    apply Hlist; [vm_compute; discriminate | right; reflexivity].
  - split; [reflexivity |]. apply Hfar.
    + vm_compute; discriminate.
    + intros [H | H]; vm_compute in H; discriminate.
    + intros k Hk H.
      assert (Hcases : k = 1%nat \/ k = 2%nat \/ k = 3%nat) by lia.
      destruct Hcases as [-> | [-> | ->]]; vm_compute in H; discriminate.
    + reflexivity.
Defined.
